(** * Shallow embedding of [src/app.py] (punjabi-pdf2word)

    The DOCX -> PDF conversion of the Streamlit application: the script
    classifier [is_gurmukhi_text], the formatting extractor
    [get_text_formatting], the font resolver [get_best_font], the colour
    parser [hex_to_reportlab_color] and the layout builder inside
    [convert_docx_to_pdf].

    Python strings are sequences of code points: they are modelled as
    [list Z].  Python string literals of the source are written with [lit],
    which maps an ASCII [string] to its code points. *)

From Stdlib Require Import ZArith List String Ascii Bool Lia.
Import ListNotations.
Open Scope Z_scope.

(** ** Python strings *)

Definition pystr := list Z.

Fixpoint lit (s : string) : pystr :=
  match s with
  | EmptyString => []
  | String c s' => Z.of_nat (nat_of_ascii c) :: lit s'
  end.

(** [s.startswith(p)] *)
Fixpoint startswith (s p : pystr) : bool :=
  match p, s with
  | [], _ => true
  | c :: p', d :: s' => (c =? d) && startswith s' p'
  | _ :: _, [] => false
  end.

(** [needle in hay] for strings: substring containment. *)
Fixpoint contains (needle hay : pystr) : bool :=
  startswith hay needle ||
  match hay with
  | [] => false
  | _ :: hay' => contains needle hay'
  end.

(** [str.isspace] on one code point (the Unicode white space of CPython). *)
Definition is_ws (c : Z) : bool :=
  ((9 <=? c) && (c <=? 13)) || ((28 <=? c) && (c <=? 32)) ||
  (c =? 133) || (c =? 160) || (c =? 5760) ||
  ((8192 <=? c) && (c <=? 8202)) || (c =? 8232) || (c =? 8233) ||
  (c =? 8239) || (c =? 8287) || (c =? 12288).

Fixpoint lstrip (s : pystr) : pystr :=
  match s with
  | [] => []
  | c :: s' => if is_ws c then lstrip s' else s
  end.

(** [s.strip()] *)
Definition strip (s : pystr) : pystr := rev (lstrip (rev (lstrip s))).

(** Truthiness of a Python string: [not s] is true iff [s] is empty. *)
Definition truthy (s : pystr) : bool :=
  match s with [] => false | _ => true end.

(** ** Script classifier ([is_gurmukhi_text], lines 91-96)

    The argument is [None] for Python's [None] and [Some s] for a string. *)

Definition in_range (lo hi c : Z) : bool := (lo <=? c) && (c <? hi).

Definition is_gurmukhi_text (text : option pystr) : bool :=
  match text with
  | None => false
  | Some s =>
      if negb (truthy s) then false
      else
        (* gurmukhi_range = range(0x0A00, 0x0A7F) *)
        existsb (in_range 2560 2687) s
  end.

(** ** Font registration state ([FONTS_REGISTERED]) *)

Record fonts_registered := {
  gurmukhi_regular : bool;
  gurmukhi_bold : bool
}.

(** ** Font resolver ([get_best_font], lines 138-167) *)

Definition get_best_font (FR : fonts_registered) (text : pystr)
    (is_bold is_italic : bool) : string :=
  if is_gurmukhi_text (Some text) then
    if is_italic then
      if is_bold then "Helvetica-BoldOblique" else "Helvetica-Oblique"
    else if is_bold && gurmukhi_bold FR then "NotoSansGurmukhi-Bold"
    else if gurmukhi_regular FR then "NotoSansGurmukhi"
    else if is_bold then "Helvetica-Bold" else "Helvetica"
  else
    if is_bold && is_italic then "Helvetica-BoldOblique"
    else if is_bold then "Helvetica-Bold"
    else if is_italic then "Helvetica-Oblique"
    else "Helvetica".

(** ** Python attribute access

    An attribute of a run-like object is absent ([hasattr] is [False] and a
    direct access raises [AttributeError]), present with a value, or a
    property whose evaluation raises some other exception (then [hasattr]
    itself propagates it). *)

Inductive attr (A : Type) :=
| Absent
| Val (a : A)
| Boom.
Arguments Absent {A}.
Arguments Val {A} a.
Arguments Boom {A}.

(** A computation that may raise. *)
Definition Exc (A : Type) := option A.

Definition hasattr {A} (a : attr A) : Exc bool :=
  match a with Absent => Some false | Val _ => Some true | Boom => None end.

Definition getattr {A} (a : attr A) : Exc A :=
  match a with Val x => Some x | _ => None end.

Definition exc_bind {A B} (m : Exc A) (k : A -> Exc B) : Exc B :=
  match m with Some a => k a | None => None end.

Notation "x <- m ;; k" := (exc_bind m (fun x => k))
  (at level 61, m at next level, right associativity).

(** Python's short-circuit [and] / [or] on conditions that may raise. *)
Definition py_and (x : Exc bool) (y : unit -> Exc bool) : Exc bool :=
  match x with Some true => y tt | Some false => Some false | None => None end.

Definition py_or (x : Exc bool) (y : unit -> Exc bool) : Exc bool :=
  match x with Some true => Some true | Some false => y tt | None => None end.

(** Values of the boolean formatting properties of python-docx:
    [True], [False] or [None] (inherited). *)
Inductive pyflag := PTrue | PFalse | PNone.

Definition is_True (v : pyflag) : bool :=
  match v with PTrue => true | _ => false end.

(** [run.font.size]: [None] or a [Length]; its truthiness and its [pt]. *)
Record size_obj := {
  size_truthy : bool;
  size_pt : attr Z
}.

(** [run.font.color.rgb]: an integer, or another object (such as
    python-docx's [RGBColor] tuple) which the format spec [06x] rejects. *)
Inductive rgb_val :=
| RgbInt (n : Z)
| RgbOther (truthy : bool).

Definition rgb_truthy (v : rgb_val) : bool :=
  match v with RgbInt n => negb (n =? 0) | RgbOther t => t end.

(** [run.font.color]: a [ColorFormat] object. *)
Record color_obj := {
  color_truthy : bool;
  color_rgb : attr rgb_val
}.

Record font := {
  font_bold : attr pyflag;
  font_italic : attr pyflag;
  font_underline : attr pyflag;
  font_size : attr size_obj;
  font_color : attr color_obj
}.

Record run := {
  run_text : pystr;
  run_bold : attr pyflag;
  run_italic : attr pyflag;
  run_underline : attr pyflag;
  run_font : attr font
}.

(** ** [f"{n:06x}"] *)

Definition hex_char (d : Z) : Z := if d <? 10 then 48 + d else 87 + d.

Fixpoint hex_digits_aux (fuel : nat) (n : Z) (acc : pystr) : pystr :=
  match fuel with
  | O => acc
  | S f =>
      let acc' := hex_char (n mod 16) :: acc in
      if n / 16 =? 0 then acc' else hex_digits_aux f (n / 16) acc'
  end.

(** Lower-case hexadecimal digits of [n >= 0]. *)
Definition hex_digits (n : Z) : pystr :=
  hex_digits_aux (S (Z.to_nat (Z.log2 n))) n [].

Definition zero_pad (w : nat) (s : pystr) : pystr :=
  repeat 48 (w - List.length s) ++ s.

(** Width 6 includes the sign; zero padding goes after the sign. *)
Definition format_06x (n : Z) : pystr :=
  if n <? 0 then 45 :: zero_pad 5 (hex_digits (- n))
  else zero_pad 6 (hex_digits n).

Definition format_rgb (v : rgb_val) : Exc pystr :=
  match v with
  | RgbInt n => Some (35 :: format_06x n)
  | RgbOther _ => None
  end.

(** ** Formatting extractor ([get_text_formatting], lines 98-136) *)

Record fmt := {
  bold : bool;
  italic : bool;
  underline : bool;
  size : Z;
  color : pystr
}.

Definition default_fmt : fmt :=
  {| bold := false; italic := false; underline := false;
     size := 12; color := lit "#000000" |}.

(** The [formatting] dict is mutated in place inside the [try] block: a
    state (the dict) and error monad.  An exception keeps the dict as it is
    at the raise. *)
Definition M (A : Type) := fmt -> option A * fmt.

Definition mret {A} (a : A) : M A := fun s => (Some a, s).

Definition mbind {A B} (m : M A) (k : A -> M B) : M B :=
  fun s => match m s with
           | (Some a, s') => k a s'
           | (None, s') => (None, s')
           end.

Definition lift {A} (e : Exc A) : M A := fun s => (e, s).

Definition modify (f : fmt -> fmt) : M unit := fun s => (Some tt, f s).

Notation "x <-- m ;;; k" := (mbind m (fun x => k))
  (at level 61, m at next level, right associativity).

Definition set_bold (f : fmt) : fmt :=
  {| bold := true; italic := italic f; underline := underline f;
     size := size f; color := color f |}.
Definition set_italic (f : fmt) : fmt :=
  {| bold := bold f; italic := true; underline := underline f;
     size := size f; color := color f |}.
Definition set_underline (f : fmt) : fmt :=
  {| bold := bold f; italic := italic f; underline := true;
     size := size f; color := color f |}.
Definition set_size (z : Z) (f : fmt) : fmt :=
  {| bold := bold f; italic := italic f; underline := underline f;
     size := z; color := color f |}.
Definition set_color (c : pystr) (f : fmt) : fmt :=
  {| bold := bold f; italic := italic f; underline := underline f;
     size := size f; color := c |}.

(** [(hasattr(run, a) and run.a is True) or
     (hasattr(run, 'font') and hasattr(run.font, a) and run.font.a is True)] *)
Definition flag_check (own : attr pyflag) (sel : font -> attr pyflag)
    (rf : attr font) : Exc bool :=
  py_or
    (py_and (hasattr own) (fun _ => v <- getattr own ;; Some (is_True v)))
    (fun _ =>
       py_and (hasattr rf) (fun _ =>
       py_and (f <- getattr rf ;; hasattr (sel f)) (fun _ =>
       f <- getattr rf ;; v <- getattr (sel f) ;; Some (is_True v)))).

Definition bold_check (r : run) : Exc bool :=
  flag_check (run_bold r) font_bold (run_font r).
Definition italic_check (r : run) : Exc bool :=
  flag_check (run_italic r) font_italic (run_font r).
Definition underline_check (r : run) : Exc bool :=
  flag_check (run_underline r) font_underline (run_font r).

(** [hasattr(run, 'font') and run.font.size and hasattr(run.font.size, 'pt')] *)
Definition size_check (r : run) : Exc bool :=
  py_and (hasattr (run_font r)) (fun _ =>
  py_and (f <- getattr (run_font r) ;; s <- getattr (font_size f) ;;
          Some (size_truthy s)) (fun _ =>
  f <- getattr (run_font r) ;; s <- getattr (font_size f) ;;
  hasattr (size_pt s))).

(** [run.font.size.pt] *)
Definition size_read (r : run) : Exc Z :=
  f <- getattr (run_font r) ;; s <- getattr (font_size f) ;;
  getattr (size_pt s).

(** [hasattr(run, 'font') and run.font.color and
     hasattr(run.font.color, 'rgb') and run.font.color.rgb] *)
Definition color_check (r : run) : Exc bool :=
  py_and (hasattr (run_font r)) (fun _ =>
  py_and (f <- getattr (run_font r) ;; c <- getattr (font_color f) ;;
          Some (color_truthy c)) (fun _ =>
  py_and (f <- getattr (run_font r) ;; c <- getattr (font_color f) ;;
          hasattr (color_rgb c)) (fun _ =>
  f <- getattr (run_font r) ;; c <- getattr (font_color f) ;;
  v <- getattr (color_rgb c) ;; Some (rgb_truthy v)))).

(** [rgb_val = run.font.color.rgb; f"#{rgb_val:06x}"] *)
Definition color_read (r : run) : Exc pystr :=
  f <- getattr (run_font r) ;; c <- getattr (font_color f) ;;
  v <- getattr (color_rgb c) ;; format_rgb v.

Definition when (b : bool) (m : M unit) : M unit :=
  if b then m else mret tt.

(** The body of the [try] block. *)
Definition extract_body (r : run) : M unit :=
  b <-- lift (bold_check r) ;;;
  _ <-- when b (modify set_bold) ;;;
  i <-- lift (italic_check r) ;;;
  _ <-- when i (modify set_italic) ;;;
  u <-- lift (underline_check r) ;;;
  _ <-- when u (modify set_underline) ;;;
  s <-- lift (size_check r) ;;;
  _ <-- when s (z <-- lift (size_read r) ;;; modify (set_size z)) ;;;
  c <-- lift (color_check r) ;;;
  when c (v <-- lift (color_read r) ;;; modify (set_color v)).

(** [except Exception: pass] then [return formatting]: the function itself
    never raises, whence its result type [fmt]. *)
Definition get_text_formatting (r : run) : fmt :=
  snd (extract_body r default_fmt).

(** ** [int(x, 16)]

    CPython first maps every Unicode decimal digit to its ASCII digit and
    every Unicode white space to a space (any other non-ASCII character
    makes the literal invalid), strips white space, then reads an optional
    sign, an optional [0x]/[0X] prefix (which may be followed by one [_]),
    and hexadecimal digits with single underscores between them. *)

(** Zero code point of every run of Unicode decimal digits (category Nd). *)
Definition nd_zeros : list Z :=
  [48; 1632; 1776; 1984; 2406; 2534; 2662; 2790; 2918; 3046; 3174; 3302;
   3430; 3558; 3664; 3792; 3872; 4160; 4240; 6112; 6160; 6470; 6608; 6784;
   6800; 6992; 7088; 7232; 7248; 42528; 43216; 43264; 43472; 43504; 43600;
   44016; 65296; 66720; 68912; 69734; 69872; 69942; 70096; 70384; 70736;
   70864; 71248; 71360; 71472; 71904; 72016; 72784; 73040; 73120; 73552;
   92768; 92864; 93008; 120782; 120792; 120802; 120812; 120822; 123200;
   123632; 124144; 125264; 130032].

Definition decimal_value (c : Z) : option Z :=
  match find (fun z => (z <=? c) && (c <? z + 10)) nd_zeros with
  | Some z => Some (c - z)
  | None => None
  end.

(** [_PyUnicode_TransformDecimalAndSpaceToASCII]; 63 is ['?']. *)
Definition to_ascii_char (c : Z) : Z :=
  if c <? 128 then c
  else match decimal_value c with
       | Some d => 48 + d
       | None => if is_ws c then 32 else 63
       end.

Definition hex_value (c : Z) : option Z :=
  if (48 <=? c) && (c <=? 57) then Some (c - 48)
  else if (97 <=? c) && (c <=? 102) then Some (c - 87)
  else if (65 <=? c) && (c <=? 70) then Some (c - 55)
  else None.

(** Digits, each [_] standing between two digits; [need] is set when a digit
    must come next. *)
Fixpoint parse_hex_digits (s : pystr) (acc : Z) (need : bool) : option Z :=
  match s with
  | [] => if need then None else Some acc
  | c :: s' =>
      if c =? 95 then (if need then None else parse_hex_digits s' acc true)
      else match hex_value c with
           | Some d => parse_hex_digits s' (acc * 16 + d) false
           | None => None
           end
  end.

Definition parse_unsigned16 (s : pystr) : option Z :=
  match s with
  | 48 :: x :: rest =>
      if (x =? 120) || (x =? 88) then
        match rest with
        | 95 :: rest' => parse_hex_digits rest' 0 true
        | _ => parse_hex_digits rest 0 true
        end
      else parse_hex_digits s 0 true
  | _ => parse_hex_digits s 0 true
  end.

Definition int16 (x : pystr) : option Z :=
  match strip (map to_ascii_char x) with
  | 43 :: s => parse_unsigned16 s
  | 45 :: s => option_map Z.opp (parse_unsigned16 s)
  | s => parse_unsigned16 s
  end.

(** [s[i:j]] *)
Definition slice (i j : nat) (s : pystr) : pystr :=
  firstn (j - i) (skipn i s).

(** ** Colours ([hex_to_reportlab_color], lines 181-191)

    [RGB r g b] is reportlab's [colors.Color(r / 255.0, g / 255.0, b / 255.0)]
    (alpha 1); [colors.black] is [Color(0, 0, 0, 1)]. *)

Inductive rl_color := RGB (r g b : Z).

Definition black : rl_color := RGB 0 0 0.

Definition hex_to_reportlab_color (hex_color : pystr) : rl_color :=
  let h := if startswith hex_color (lit "#") then tl hex_color else hex_color in
  match int16 (slice 0 2 h), int16 (slice 2 4 h), int16 (slice 4 6 h) with
  | Some r, Some g, Some b => RGB r g b
  | _, _, _ => black  (* bare [except:] *)
  end.

(** ** Decimal rendering, for [f"{n}"] *)

Fixpoint dec_digits_aux (fuel : nat) (n : Z) (acc : pystr) : pystr :=
  match fuel with
  | O => acc
  | S f =>
      let acc' := (48 + n mod 10) :: acc in
      if n / 10 =? 0 then acc' else dec_digits_aux f (n / 10) acc'
  end.

Definition str_of_Z (n : Z) : pystr :=
  dec_digits_aux (S (Z.to_nat (Z.log2 n))) n [].

Definition str_of_nat (n : nat) : pystr := str_of_Z (Z.of_nat n).

(** ** Document object model (python-docx) *)

(** [paragraph.style] is [None] or a style with a name; [paragraph.alignment]
    is [None] or a [WD_ALIGN_PARAGRAPH] value. *)
Record paragraph := {
  par_style : option pystr;
  par_alignment : option Z;
  par_runs : list run
}.

(** [paragraph.text] *)
Definition par_text (p : paragraph) : pystr :=
  List.concat (map run_text (par_runs p)).

(** [not s.strip()] *)
Definition blank (s : pystr) : bool := negb (truthy (strip s)).

(** A table: rows of cells, each cell a list of paragraphs. *)
Record table := {
  tbl_rows : list (list (list paragraph))
}.

(** The document body in reading order; [doc.paragraphs] and [doc.tables]
    are its two projections. *)
Inductive block :=
| BPara (p : paragraph)
| BTable (t : table).

Definition doc_paragraphs (body : list block) : list paragraph :=
  flat_map (fun b => match b with BPara p => [p] | BTable _ => [] end) body.

Definition doc_tables (body : list block) : list table :=
  flat_map (fun b => match b with BTable t => [t] | BPara _ => [] end) body.

(** ** Layout elements (reportlab flowables) *)

(** A [ParagraphStyle]; [leading] is kept in tenths of a point
    ([size * 1.2] is [size * 12] tenths). *)
Record pstyle := {
  ps_name : pystr;
  ps_fontName : string;
  ps_fontSize : Z;
  ps_alignment : Z;
  ps_textColor : rl_color;
  ps_spaceAfter : Z;
  ps_leftIndent : Z;
  ps_leading10 : Z
}.

Inductive targ :=
| AStr (s : string)
| ANum (n : Z)
| AHalf                      (* the line width 0.5 *)
| AColor (c : rl_color).

(** A [TableStyle] command [(name, start, stop, args...)]. *)
Record tcmd := {
  tc_name : string;
  tc_start : Z * Z;
  tc_stop : Z * Z;
  tc_args : list targ
}.

Inductive elem :=
| EPara (text : pystr) (st : pstyle)          (* Paragraph(text, style) *)
| ESpacer (w h : Z)                           (* Spacer(w, h) *)
| ETable (data : list (list pystr)) (st : list tcmd).  (* Table + setStyle *)

(** ** Paragraph properties *)

(** TA_LEFT = 0, TA_CENTER = 1, TA_RIGHT = 2, TA_JUSTIFY = 4 *)
Definition get_paragraph_alignment (p : paragraph) : Z :=
  match par_alignment p with
  | Some 0 => 0
  | Some 1 => 1
  | Some 2 => 2
  | Some 3 => 4
  | _ => 0
  end.

(** [paragraph.style.name if paragraph.style else 'Normal'] *)
Definition style_name (p : paragraph) : pystr :=
  match par_style p with Some n => n | None => lit "Normal" end.

Definition base_size (style : pystr) : Z :=
  if contains (lit "Heading 1") style then 18
  else if contains (lit "Heading 2") style then 16
  else if contains (lit "Heading 3") style then 14
  else if contains (lit "Title") style then 20
  else 12.

Definition is_list_item (style : pystr) : bool := contains (lit "List") style.

(** [p.style.name if p.style else ''] in the numbering count. *)
Definition style_name_or_empty (p : paragraph) : pystr :=
  match par_style p with Some n => n | None => [] end.

(** [sum(1 for i, p in enumerate(doc.paragraphs[:para_idx])
         if 'List Number' in (p.style.name if p.style else ''))] *)
Definition list_number (pars : list paragraph) (para_idx : nat) : nat :=
  List.length (filter (fun q => contains (lit "List Number") (style_name_or_empty q))
                      (firstn para_idx pars)).

(** The bullet is U+25CF followed by a space. *)
Definition list_prefix (pars : list paragraph) (para_idx : nat) (style : pystr)
    : pystr :=
  if is_list_item style then
    if contains (lit "Bullet") style then [9679; 32]
    else if contains (lit "Number") style then
      str_of_nat (S (list_number pars para_idx)) ++ lit ". "
    else []
  else [].

(** [f"<u>{t}</u>"] when underlined. *)
Definition wrap_u (u : bool) (t : pystr) : pystr :=
  if u then lit "<u>" ++ t ++ lit "</u>" else t.

Definition same_flags (f g : fmt) : bool :=
  Bool.eqb (bold f) (bold g) && Bool.eqb (italic f) (italic g) &&
  Bool.eqb (underline f) (underline g).

Definition runs_with_text (p : paragraph) : list run :=
  filter (fun r => negb (blank (run_text r))) (par_runs p).

(** ** Layout builder: paragraph path ([convert_docx_to_pdf], lines 264-407) *)

Section Layout.

Variable FR : fonts_registered.

(** The loop over [enumerate(runs_with_text)] of the mixed path; [fp] is
    [first_run_processed]. *)
Fixpoint mixed_runs (base align : Z) (is_list : bool) (prefix : pystr)
    (para_idx run_idx : nat) (fp : bool) (rs : list run) : list elem :=
  match rs with
  | [] => []
  | r :: rs' =>
      if blank (run_text r) then
        mixed_runs base align is_list prefix para_idx (S run_idx) fp rs'
      else
        let f := get_text_formatting r in
        let font_name := get_best_font FR (run_text r) (bold f) (italic f) in
        let text_color := hex_to_reportlab_color (color f) in
        let '(rt, fp') :=
          if is_list && negb fp then (prefix ++ run_text r, true)
          else (run_text r, fp) in
        let st := {| ps_name := lit "Run_" ++ str_of_nat para_idx ++ lit "_"
                                ++ str_of_nat run_idx;
                     ps_fontName := font_name;
                     ps_fontSize := Z.max (size f) base;
                     ps_alignment := align;
                     ps_textColor := text_color;
                     ps_spaceAfter := if is_list then 1 else 2;
                     ps_leftIndent := if is_list then 20 else 0;
                     ps_leading10 := Z.max (size f) base * 12 |} in
        EPara (wrap_u (underline f) rt) st
          :: mixed_runs base align is_list prefix para_idx (S run_idx) fp' rs'
  end.

(** The elements emitted for paragraph number [para_idx] of [pars]. *)
Definition para_elems (pars : list paragraph) (para_idx : nat) (p : paragraph)
    : list elem :=
  if blank (par_text p) then [] else
  let align := get_paragraph_alignment p in
  let sname := style_name p in
  let base := base_size sname in
  let is_list := is_list_item sname in
  let prefix := list_prefix pars para_idx sname in
  match runs_with_text p with
  | [] => []
  | r0 :: rest =>
      let first_fmt := get_text_formatting r0 in
      let uniform := forallb (fun r => same_flags (get_text_formatting r) first_fmt)
                             rest in
      if uniform then
        let font_name := get_best_font FR (par_text p) (bold first_fmt)
                                       (italic first_fmt) in
        let st := {| ps_name := lit "Para_" ++ str_of_nat para_idx;
                     ps_fontName := font_name;
                     ps_fontSize := Z.max (size first_fmt) base;
                     ps_alignment := align;
                     ps_textColor := hex_to_reportlab_color (color first_fmt);
                     ps_spaceAfter := if is_list then 3 else 6;
                     ps_leftIndent := if is_list then 20 else 0;
                     ps_leading10 := Z.max (size first_fmt) base * 12 |} in
        [EPara (wrap_u (underline first_fmt) (prefix ++ par_text p)) st]
      else
        mixed_runs base align is_list prefix para_idx 0 false (r0 :: rest)
          ++ (if is_list then [] else [ESpacer 1 6])
  end.

(** [for para_idx, paragraph in enumerate(doc.paragraphs)] *)
Fixpoint paras_story (pars : list paragraph) (idx : nat) (ps : list paragraph)
    : list elem :=
  match ps with
  | [] => []
  | p :: ps' => para_elems pars idx p ++ paras_story pars (S idx) ps'
  end.

(** ** Layout builder: table path (lines 410-486) *)

(** Decoration tags of a cell run: underline innermost, bold outermost. *)
Definition tag_run (r : run) : pystr :=
  let f := get_text_formatting r in
  let t1 := if underline f then lit "<u>" ++ run_text r ++ lit "</u>" else run_text r in
  let t2 := if italic f then lit "<i>" ++ t1 ++ lit "</i>" else t1 in
  if bold f then lit "<b>" ++ t2 ++ lit "</b>" else t2.

Definition has_formatting (p : paragraph) : bool :=
  existsb (fun r => negb (blank (run_text r)) &&
                    (let f := get_text_formatting r in
                     bold f || italic f || underline f))
          (par_runs p).

Definition cell_para_content (p : paragraph) : pystr :=
  if blank (par_text p) then []
  else if has_formatting p then
    List.concat (map (fun r => if blank (run_text r) then [] else tag_run r)
                     (par_runs p)) ++ [32]
  else par_text p ++ [32].

Definition cell_content (cell : list paragraph) : pystr :=
  strip (List.concat (map cell_para_content cell)).

Definition lightgrey : rl_color := RGB 211 211 211.

Definition table_style (n_rows : nat) : list tcmd :=
  [ {| tc_name := "ALIGN"; tc_start := (0, 0); tc_stop := (-1, -1);
       tc_args := [AStr "LEFT"] |};
    {| tc_name := "VALIGN"; tc_start := (0, 0); tc_stop := (-1, -1);
       tc_args := [AStr "TOP"] |};
    {| tc_name := "FONTNAME"; tc_start := (0, 0); tc_stop := (-1, -1);
       tc_args := [AStr (if gurmukhi_regular FR then "NotoSansGurmukhi"
                         else "Helvetica")] |};
    {| tc_name := "FONTSIZE"; tc_start := (0, 0); tc_stop := (-1, -1);
       tc_args := [ANum 11] |};
    {| tc_name := "GRID"; tc_start := (0, 0); tc_stop := (-1, -1);
       tc_args := [AHalf; AColor black] |};
    {| tc_name := "LEFTPADDING"; tc_start := (0, 0); tc_stop := (-1, -1);
       tc_args := [ANum 8] |};
    {| tc_name := "RIGHTPADDING"; tc_start := (0, 0); tc_stop := (-1, -1);
       tc_args := [ANum 8] |};
    {| tc_name := "TOPPADDING"; tc_start := (0, 0); tc_stop := (-1, -1);
       tc_args := [ANum 6] |};
    {| tc_name := "BOTTOMPADDING"; tc_start := (0, 0); tc_stop := (-1, -1);
       tc_args := [ANum 6] |} ]
  ++ (if (1 <? n_rows)%nat then
        [ {| tc_name := "BACKGROUND"; tc_start := (0, 0); tc_stop := (-1, 0);
             tc_args := [AColor lightgrey] |};
          {| tc_name := "FONTNAME"; tc_start := (0, 0); tc_stop := (-1, 0);
             tc_args := [AStr (if gurmukhi_bold FR then "NotoSansGurmukhi-Bold"
                               else "Helvetica-Bold")] |};
          {| tc_name := "FONTSIZE"; tc_start := (0, 0); tc_stop := (-1, 0);
             tc_args := [ANum 12] |} ]
      else []).

Definition table_elems (t : table) : list elem :=
  match tbl_rows t with
  | [] => []
  | rows =>
      let table_data := map (fun row => map cell_content row) rows in
      match table_data with
      | [] => []
      | _ => [ETable table_data (table_style (List.length table_data));
              ESpacer 1 12]
      end
  end.

(** The [story]: all paragraphs first, then all tables. *)
Definition story (body : list block) : list elem :=
  let pars := doc_paragraphs body in
  paras_story pars 0 pars ++ flat_map table_elems (doc_tables body).

End Layout.

(** ** Conversion with its temporary file (lines 193-501)

    The two libraries are parameters: python-docx's [Document(path)] and
    reportlab's [pdf_doc.build(story)], each returning the parsed document
    or the PDF bytes, or raising with a message.  [FR] is the font state
    left by [register_fonts], which never raises.  The file system is the
    set of existing temporary files, named by a counter. *)

Record fs_state := {
  files : list nat;
  next_tmp : nat;
  messages : list pystr      (* st.error output shown to the user *)
}.

Section Conversion.

Variable Document : list Z -> pystr + list block.
Variable build : list elem -> pystr + list Z.
Variable FR : fonts_registered.

Definition report_error (e : pystr) (s : fs_state) : fs_state :=
  {| files := files s; next_tmp := next_tmp s;
     messages := messages s ++ [lit "Conversion error: " ++ e;
                                lit "Details: " ++ e] |}.

Definition convert_docx_to_pdf (docx_bytes : list Z) (s : fs_state)
    : option (list Z) * fs_state :=
  (* tempfile.NamedTemporaryFile(delete=False, suffix='.docx') *)
  let temp_docx_path := next_tmp s in
  let s1 := {| files := temp_docx_path :: files s;
               next_tmp := S temp_docx_path;
               messages := messages s |} in
  match Document docx_bytes with
  | inl e => (None, report_error e s1)
  | inr body =>
      match build (story FR body) with
      | inl e => (None, report_error e s1)
      | inr pdf =>
          (* os.unlink(temp_docx_path) *)
          (Some pdf, {| files := remove Nat.eq_dec temp_docx_path (files s1);
                        next_tmp := next_tmp s1;
                        messages := messages s1 |})
      end
  end.

End Conversion.

(** ** Font registration ([register_fonts], lines 67-89)

    [download_font] catches its own errors and yields a file path or [None];
    the two download results are inputs.  [register_ok path] tells whether
    [pdfmetrics.registerFont(TTFont(name, path))] succeeds (a bad font file
    raises).  One [try] encloses both registrations. *)

Definition set_gurmukhi_regular (FR : fonts_registered) : fonts_registered :=
  {| gurmukhi_regular := true; gurmukhi_bold := gurmukhi_bold FR |}.
Definition set_gurmukhi_bold (FR : fonts_registered) : fonts_registered :=
  {| gurmukhi_regular := gurmukhi_regular FR; gurmukhi_bold := true |}.

Definition register_fonts (regular_path bold_path : option pystr)
    (register_ok : pystr -> bool) (FR : fonts_registered)
    : fonts_registered * list pystr :=
  let font_error := (FR, [lit "Font registration error"]) in
  let bold_part (FR1 : fonts_registered) :=
    match bold_path with
    | Some path =>
        if truthy path then
          if register_ok path then (set_gurmukhi_bold FR1, [])
          else (FR1, [lit "Font registration error"])
        else (FR1, [])
    | None => (FR1, [])
    end in
  match regular_path with
  | Some path =>
      if truthy path then
        if register_ok path then bold_part (set_gurmukhi_regular FR)
        else font_error
      else bold_part FR
  | None => bold_part FR
  end.

(** ** Download names ([Path(uploaded_file.name).stem], lines 535 and 544)

    [PurePosixPath(s).name] is the last component other than [''] and ['.'];
    [stem] cuts at the last dot when [0 < i < len(name) - 1]. *)

Fixpoint split_slash (s : pystr) (cur : pystr) : list pystr :=
  match s with
  | [] => [rev cur]
  | c :: s' => if c =? 47 then rev cur :: split_slash s' [] else split_slash s' (c :: cur)
  end.

Definition path_name (s : pystr) : pystr :=
  last (filter (fun part => truthy part && negb (if list_eq_dec Z.eq_dec part [46] then true else false))
               (split_slash s [])) [].

(** [name.rfind('.')], -1 when absent. *)
Fixpoint rfind_dot_aux (s : pystr) (i best : Z) : Z :=
  match s with
  | [] => best
  | c :: s' => rfind_dot_aux s' (i + 1) (if c =? 46 then i else best)
  end.

Definition rfind_dot (s : pystr) : Z := rfind_dot_aux s 0 (-1).

Definition path_stem (s : pystr) : pystr :=
  let name := path_name s in
  let i := rfind_dot name in
  if (0 <? i) && (i <? Z.of_nat (List.length name) - 1)
  then firstn (Z.to_nat i) name else name.

(** The two download buttons: preview name and download name. *)
Definition download_names (uploaded_name : pystr) : pystr * pystr :=
  (lit "preview_" ++ path_stem uploaded_name ++ lit ".pdf",
   path_stem uploaded_name ++ lit ".pdf").

(** ** Document analysis ([stats], lines 207-231)

    [font_sizes] is a Python set: a list without repetitions here. *)

Record doc_stats := {
  bold_runs : nat;
  italic_runs : nat;
  underline_runs : nat;
  colored_runs : nat;
  gurmukhi_runs : nat;
  font_sizes : list Z
}.

Definition empty_stats : doc_stats :=
  {| bold_runs := 0; italic_runs := 0; underline_runs := 0;
     colored_runs := 0; gurmukhi_runs := 0; font_sizes := [] |}.

(** [set.add] *)
Definition set_add (z : Z) (l : list Z) : list Z :=
  if existsb (Z.eqb z) l then l else l ++ [z].

Definition incr_if (b : bool) (n : nat) : nat := if b then S n else n.

(** The body of [for run in paragraph.runs: if run.text.strip(): ...] *)
Definition count_run (st : doc_stats) (r : run) : doc_stats :=
  if blank (run_text r) then st else
  let f := get_text_formatting r in
  {| bold_runs := incr_if (bold f) (bold_runs st);
     italic_runs := incr_if (italic f) (italic_runs st);
     underline_runs := incr_if (underline f) (underline_runs st);
     colored_runs :=
       incr_if (if list_eq_dec Z.eq_dec (color f) (lit "#000000") then false
                else true) (colored_runs st);
     gurmukhi_runs := incr_if (is_gurmukhi_text (Some (run_text r))) (gurmukhi_runs st);
     font_sizes := set_add (size f) (font_sizes st) |}.

Definition analyze (pars : list paragraph) : doc_stats :=
  fold_left count_run (flat_map par_runs pars) empty_stats.

(** ** Sample inputs *)

Definition FR_none : fonts_registered :=
  {| gurmukhi_regular := false; gurmukhi_bold := false |}.
Definition FR_all : fonts_registered :=
  {| gurmukhi_regular := true; gurmukhi_bold := true |}.

(** "ਸਤ ਸ੍ਰੀ ਅਕਾਲ" *)
Definition sat_sri_akal : pystr :=
  [2616; 2596; 32; 2616; 2637; 2608; 2624; 32; 2565; 2581; 2622; 2610].

(** A run with text [t], [run.bold = b] and nothing else set. *)
Definition plain_run (t : string) (b : pyflag) : run :=
  {| run_text := lit t; run_bold := Val b; run_italic := Val PNone;
     run_underline := Val PNone; run_font := Absent |}.

(** A run-like object exposing no formatting attribute at all. *)
Definition bare_run (t : pystr) : run :=
  {| run_text := t; run_bold := Absent; run_italic := Absent;
     run_underline := Absent; run_font := Absent |}.

(** A bold run whose colour is a python-docx [RGBColor] (not an [int]). *)
Definition rgbcolor_run : run :=
  {| run_text := lit "x"; run_bold := Val PTrue; run_italic := Val PNone;
     run_underline := Val PNone;
     run_font := Val {| font_bold := Val PNone; font_italic := Val PNone;
                        font_underline := Val PNone; font_size := Absent;
                        font_color := Val {| color_truthy := true;
                                             color_rgb := Val (RgbOther true) |} |} |}.

Definition simple_par (style : string) (rs : list run) : paragraph :=
  {| par_style := Some (lit style); par_alignment := None; par_runs := rs |}.

(** A bullet item with one bold and one plain run. *)
Definition mixed_bullet : paragraph :=
  simple_par "List Bullet" [plain_run "a" PTrue; plain_run "b" PFalse].

(** Two items of a user-defined numbered style. *)
Definition numbered_item : paragraph :=
  simple_par "Numbered List" [plain_run "x" PNone].
Definition numbered_pars : list paragraph := [numbered_item; numbered_item].

Definition cell_of (t : string) : list paragraph :=
  [simple_par "Normal" [plain_run t PNone]].

Definition table_2x3 : table :=
  {| tbl_rows := [[cell_of "a"; cell_of "b"; cell_of "c"];
                  [cell_of "1"; cell_of "2"; cell_of "3"]] |}.

(** A table placed before a paragraph in reading order. *)
Definition table_first_body : list block :=
  [BTable table_2x3; BPara (simple_par "Normal" [plain_run "Hello" PNone])].

Definition fs0 : fs_state := {| files := []; next_tmp := 0; messages := [] |}.

Definition unreadable_docx (b : list Z) : pystr + list block :=
  inl (lit "File is not a zip file").

Definition no_pdf (st : list elem) : pystr + list Z := inl [].


(** A Gurmukhi heading followed by a table. *)
Definition gurmukhi_body : list block :=
  [BPara (simple_par "Heading 1" [bare_run sat_sri_akal]); BTable table_2x3].

(** ** Helpers for the further properties *)

(** The last [k] hexadecimal digits of [n], most significant first. *)
Fixpoint pad_hex (k : nat) (n : Z) : pystr :=
  match k with
  | O => []
  | S k' => pad_hex k' (n / 16) ++ [hex_char (n mod 16)]
  end.

(** Fonts a style may name without [pdfmetrics] failing at build time: the
    standard Helvetica family, and a Noto font once registered. *)
Definition font_available (FR : fonts_registered) (f : string) : Prop :=
  f = "Helvetica"%string \/ f = "Helvetica-Bold"%string \/
  f = "Helvetica-Oblique"%string \/ f = "Helvetica-BoldOblique"%string \/
  (f = "NotoSansGurmukhi"%string /\ gurmukhi_regular FR = true) \/
  (f = "NotoSansGurmukhi-Bold"%string /\ gurmukhi_bold FR = true).

(** The style of a paragraph block, as the two paths build it. *)
Definition para_style_ok (FR : fonts_registered) (base : Z) (st : pstyle) : Prop :=
  (exists txt b i, ps_fontName st = get_best_font FR txt b i) /\
  (exists sz, ps_fontSize st = Z.max sz base) /\
  ps_leading10 st = ps_fontSize st * 12.


(** Number of non-blank runs of [l] satisfying [P]. *)
Definition count_nonblank (P : run -> bool) (l : list run) : nat :=
  List.length (filter (fun r => negb (blank (run_text r)) && P r) l).

(** * Properties *)

(** ** Script classifier *)

Lemma in_range_spec (lo hi c : Z) :
  in_range lo hi c = true <-> lo <= c < hi.
Proof.
  unfold in_range. rewrite andb_true_iff, Z.leb_le, Z.ltb_lt. tauto.
Qed.

Lemma is_gurmukhi_text_some (s : pystr) :
  is_gurmukhi_text (Some s) = true <->
  exists c, In c s /\ 2560 <= c <= 2686.
Proof.
  destruct s as [| c0 s'].
  - simpl. split; [discriminate | intros (c & [] & _)].
  - unfold is_gurmukhi_text. simpl negb. cbv iota.
    rewrite existsb_exists. split.
    + intros (c & Hin & Hr). apply in_range_spec in Hr.
      exists c. split; [exact Hin | lia].
    + intros (c & Hin & Hr). exists c. split; [exact Hin |].
      apply in_range_spec. lia.
Qed.

(** ** Font resolver *)

Definition latin_italic (is_bold : bool) : string :=
  if is_bold then "Helvetica-BoldOblique" else "Helvetica-Oblique".

(** ** Colour parser *)

Definition ascii_hex_digits : list Z :=
  [48; 49; 50; 51; 52; 53; 54; 55; 56; 57;
   97; 98; 99; 100; 101; 102; 65; 66; 67; 68; 69; 70].

Ltac in_list := simpl; repeat (first [left; reflexivity | right]).

Lemma hex_value_ascii (c v : Z) :
  hex_value c = Some v -> In c ascii_hex_digits.
Proof.
  unfold hex_value. intros H.
  destruct ((48 <=? c) && (c <=? 57)) eqn:E1.
  { apply andb_true_iff in E1. destruct E1 as [A B].
    apply Z.leb_le in A. apply Z.leb_le in B.
    assert (c = 48 \/ c = 49 \/ c = 50 \/ c = 51 \/ c = 52 \/ c = 53 \/
            c = 54 \/ c = 55 \/ c = 56 \/ c = 57) by lia.
    repeat (destruct H0 as [-> | H0]; [in_list |]); subst; in_list. }
  destruct ((97 <=? c) && (c <=? 102)) eqn:E2.
  { apply andb_true_iff in E2. destruct E2 as [A B].
    apply Z.leb_le in A. apply Z.leb_le in B.
    assert (c = 97 \/ c = 98 \/ c = 99 \/ c = 100 \/ c = 101 \/ c = 102)
      by lia.
    repeat (destruct H0 as [-> | H0]; [in_list |]); subst; in_list. }
  destruct ((65 <=? c) && (c <=? 70)) eqn:E3.
  { apply andb_true_iff in E3. destruct E3 as [A B].
    apply Z.leb_le in A. apply Z.leb_le in B.
    assert (c = 65 \/ c = 66 \/ c = 67 \/ c = 68 \/ c = 69 \/ c = 70) by lia.
    repeat (destruct H0 as [-> | H0]; [in_list |]); subst; in_list. }
  discriminate.
Qed.

(** Two ASCII hexadecimal digits are read by [int(_, 16)] as their value. *)
Lemma int16_two_digits (c1 c2 v1 v2 : Z) :
  hex_value c1 = Some v1 -> hex_value c2 = Some v2 ->
  int16 [c1; c2] = Some (16 * v1 + v2).
Proof.
  intros H1 H2.
  pose proof (hex_value_ascii _ _ H1) as I1.
  pose proof (hex_value_ascii _ _ H2) as I2.
  simpl in I1, I2.
  repeat (destruct I1 as [<- | I1]); try contradiction;
  repeat (destruct I2 as [<- | I2]); try contradiction;
  simpl in H1, H2; injection H1 as <-; injection H2 as <-;
  vm_compute; reflexivity.
Qed.

Lemma hex_value_not_hash (c v : Z) : hex_value c = Some v -> (35 =? c) = false.
Proof.
  intros H. apply hex_value_ascii in H. simpl in H.
  repeat (destruct H as [<- | H]; [reflexivity |]). contradiction.
Qed.

Lemma startswith_cons (c d : Z) (s p : pystr) :
  startswith (c :: s) (d :: p) = (d =? c) && startswith s p.
Proof. reflexivity. Qed.

Lemma int16_empty : int16 [] = None.
Proof. reflexivity. Qed.

(** The parse of a string starting with six hexadecimal digits. *)
Lemma hex_to_reportlab_color_six (c1 c2 c3 c4 c5 c6 v1 v2 v3 v4 v5 v6 : Z)
    (rest : pystr) :
  hex_value c1 = Some v1 -> hex_value c2 = Some v2 ->
  hex_value c3 = Some v3 -> hex_value c4 = Some v4 ->
  hex_value c5 = Some v5 -> hex_value c6 = Some v6 ->
  hex_to_reportlab_color (c1 :: c2 :: c3 :: c4 :: c5 :: c6 :: rest) =
    RGB (16 * v1 + v2) (16 * v3 + v4) (16 * v5 + v6).
Proof.
  intros H1 H2 H3 H4 H5 H6.
  unfold hex_to_reportlab_color. change (lit "#") with [35].
  rewrite startswith_cons, (hex_value_not_hash _ _ H1). simpl andb. cbv iota.
  unfold slice. simpl.
  rewrite (int16_two_digits _ _ _ _ H1 H2), (int16_two_digits _ _ _ _ H3 H4),
    (int16_two_digits _ _ _ _ H5 H6).
  reflexivity.
Qed.

Lemma hex_to_reportlab_color_hash_six (c1 c2 c3 c4 c5 c6 v1 v2 v3 v4 v5 v6 : Z)
    (rest : pystr) :
  hex_value c1 = Some v1 -> hex_value c2 = Some v2 ->
  hex_value c3 = Some v3 -> hex_value c4 = Some v4 ->
  hex_value c5 = Some v5 -> hex_value c6 = Some v6 ->
  hex_to_reportlab_color (35 :: c1 :: c2 :: c3 :: c4 :: c5 :: c6 :: rest) =
    RGB (16 * v1 + v2) (16 * v3 + v4) (16 * v5 + v6).
Proof.
  intros H1 H2 H3 H4 H5 H6.
  unfold hex_to_reportlab_color. simpl startswith. cbv iota. simpl tl.
  unfold slice. simpl.
  rewrite (int16_two_digits _ _ _ _ H1 H2), (int16_two_digits _ _ _ _ H3 H4),
    (int16_two_digits _ _ _ _ H5 H6).
  reflexivity.
Qed.

Lemma hex_to_reportlab_color_short (s : pystr) :
  (List.length (if startswith s (lit "#") then tl s else s) <= 4)%nat ->
  hex_to_reportlab_color s = black.
Proof.
  intros Hlen. unfold hex_to_reportlab_color.
  set (h := if startswith s (lit "#") then tl s else s) in *.
  assert (E : slice 4 6 h = []).
  { unfold slice. rewrite skipn_all2 by exact Hlen. reflexivity. }
  rewrite E, int16_empty.
  destruct (int16 (slice 0 2 h)), (int16 (slice 2 4 h)); reflexivity.
Qed.

(** ** Formatting extractor *)

Definition ok {A} (e : Exc A) : bool :=
  match e with Some _ => true | None => false end.

Definition value_or {A} (d : A) (e : Exc A) : A :=
  match e with Some a => a | None => d end.

(** The size step completes without raising. *)
Definition size_step_ok (r : run) : bool :=
  match size_check r with
  | Some true => ok (size_read r)
  | Some false => true
  | None => false
  end.

(** Each field of the result is the value its own step extracts when every
    earlier step completed, and its default otherwise. *)
Lemma get_text_formatting_fields (r : run) :
  let f := get_text_formatting r in
  let ok3 := ok (bold_check r) && ok (italic_check r) && ok (underline_check r) in
  bold f = value_or false (bold_check r) /\
  italic f = (if ok (bold_check r) then value_or false (italic_check r)
              else false) /\
  underline f = (if ok (bold_check r) && ok (italic_check r)
                 then value_or false (underline_check r) else false) /\
  size f = (if ok3 then
              match size_check r, size_read r with
              | Some true, Some z => z
              | _, _ => 12
              end
            else 12) /\
  color f = (if ok3 && size_step_ok r then
               match color_check r, color_read r with
               | Some true, Some c => c
               | _, _ => lit "#000000"
               end
             else lit "#000000").
Proof.
  unfold get_text_formatting, extract_body, size_step_ok.
  destruct (bold_check r) as [[|]|]; simpl;
  try (repeat split; reflexivity);
  destruct (italic_check r) as [[|]|]; simpl;
  try (repeat split; reflexivity);
  destruct (underline_check r) as [[|]|]; simpl;
  try (repeat split; reflexivity);
  destruct (size_check r) as [[|]|]; simpl;
  try (repeat split; reflexivity);
  try (destruct (size_read r); simpl; try (repeat split; reflexivity));
  destruct (color_check r) as [[|]|]; simpl;
  try (repeat split; reflexivity);
  destruct (color_read r); simpl; repeat split; reflexivity.
Qed.

(** ** Blank strings *)

Lemma lstrip_nil_iff (s : pystr) : lstrip s = [] <-> forallb is_ws s = true.
Proof.
  induction s as [| c s IH]; simpl.
  - tauto.
  - destruct (is_ws c); simpl.
    + exact IH.
    + split; discriminate.
Qed.

Lemma lstrip_app_nonws (l : pystr) (c : Z) :
  is_ws c = false -> lstrip (l ++ [c]) <> [].
Proof.
  intros Hc. induction l as [| d l IH]; simpl.
  - rewrite Hc. discriminate.
  - destruct (is_ws d); [exact IH | discriminate].
Qed.

Lemma lstrip_head (s : pystr) (c : Z) (t : pystr) :
  lstrip s = c :: t -> is_ws c = false.
Proof.
  induction s as [| d s IH]; simpl; [discriminate |].
  destruct (is_ws d) eqn:E; [exact IH |].
  intros H. injection H as -> _. exact E.
Qed.

Lemma blank_forallb (s : pystr) : blank s = forallb is_ws s.
Proof.
  unfold blank, strip.
  destruct (lstrip s) as [| c t] eqn:E.
  - apply lstrip_nil_iff in E. rewrite E. reflexivity.
  - assert (Hc := lstrip_head _ _ _ E).
    assert (Hf : forallb is_ws s = false).
    { destruct (forallb is_ws s) eqn:F; [| reflexivity].
      apply lstrip_nil_iff in F. congruence. }
    rewrite Hf. simpl rev.
    destruct (lstrip (rev t ++ [c])) as [| z l] eqn:L.
    + exfalso. exact (lstrip_app_nonws _ _ Hc L).
    + simpl. destruct (rev l ++ [z]) eqn:R; [| reflexivity].
      apply app_eq_nil in R. destruct R as [_ R]. discriminate.
Qed.

Lemma forallb_concat {A} (f : A -> bool) (ls : list (list A)) :
  forallb f (List.concat ls) = forallb (forallb f) ls.
Proof.
  induction ls as [| l ls IH]; simpl; [reflexivity |].
  rewrite forallb_app, IH. reflexivity.
Qed.

Lemma forallb_map' {A B} (f : B -> bool) (g : A -> B) (l : list A) :
  forallb f (map g l) = forallb (fun x => f (g x)) l.
Proof.
  induction l as [| a l IH]; simpl; [reflexivity |]. rewrite IH. reflexivity.
Qed.

(** A paragraph with a non-blank run has non-blank text. *)
Lemma par_text_not_blank (p : paragraph) (r0 : run) (rest : list run) :
  runs_with_text p = r0 :: rest -> blank (par_text p) = false.
Proof.
  intros H.
  assert (Hin : In r0 (runs_with_text p)) by (rewrite H; left; reflexivity).
  unfold runs_with_text in Hin. apply filter_In in Hin.
  destruct Hin as [Hin Hnb]. apply negb_true_iff in Hnb.
  rewrite blank_forallb in Hnb |- *. unfold par_text.
  rewrite forallb_concat, forallb_map'.
  destruct (forallb (fun x => forallb is_ws (run_text x)) (par_runs p)) eqn:F;
    [| reflexivity].
  rewrite forallb_forall in F. rewrite (F r0 Hin) in Hnb. discriminate.
Qed.

Lemma same_flags_iff (f g : fmt) :
  same_flags f g = true <->
  bold f = bold g /\ italic f = italic g /\ underline f = underline g.
Proof.
  unfold same_flags. rewrite !andb_true_iff, !eqb_true_iff. tauto.
Qed.

(** ** Uniform and mixed paragraphs *)

Lemma uniform_test_true (rest : list run) (f0 : fmt) :
  Forall (fun r => let f := get_text_formatting r in
           bold f = bold f0 /\ italic f = italic f0 /\ underline f = underline f0)
         rest ->
  forallb (fun r => same_flags (get_text_formatting r) f0) rest = true.
Proof.
  intros HF. apply forallb_forall. intros r Hr.
  apply same_flags_iff. rewrite Forall_forall in HF. exact (HF r Hr).
Qed.

Lemma uniform_test_false (rest : list run) (f0 : fmt) :
  Exists (fun r => let f := get_text_formatting r in
           bold f <> bold f0 \/ italic f <> italic f0 \/
           underline f <> underline f0) rest ->
  forallb (fun r => same_flags (get_text_formatting r) f0) rest = false.
Proof.
  intros HE. destruct (forallb _ rest) eqn:E; [| reflexivity].
  exfalso. rewrite forallb_forall in E. apply Exists_exists in HE.
  destruct HE as (r & Hr & Hd). specialize (E r Hr).
  apply same_flags_iff in E. simpl in Hd. tauto.
Qed.

Lemma para_elems_runs (FR : fonts_registered) (pars : list paragraph)
    (idx : nat) (p : paragraph) (r0 : run) (rest : list run) :
  runs_with_text p = r0 :: rest ->
  let f0 := get_text_formatting r0 in
  let sname := style_name p in
  para_elems FR pars idx p =
    if forallb (fun r => same_flags (get_text_formatting r) f0) rest then
      [EPara (wrap_u (underline f0) (list_prefix pars idx sname ++ par_text p))
         {| ps_name := lit "Para_" ++ str_of_nat idx;
            ps_fontName := get_best_font FR (par_text p) (bold f0) (italic f0);
            ps_fontSize := Z.max (size f0) (base_size sname);
            ps_alignment := get_paragraph_alignment p;
            ps_textColor := hex_to_reportlab_color (color f0);
            ps_spaceAfter := if is_list_item sname then 3 else 6;
            ps_leftIndent := if is_list_item sname then 20 else 0;
            ps_leading10 := Z.max (size f0) (base_size sname) * 12 |}]
    else
      mixed_runs FR (base_size sname) (get_paragraph_alignment p)
        (is_list_item sname) (list_prefix pars idx sname) idx 0 false (r0 :: rest)
        ++ (if is_list_item sname then [] else [ESpacer 1 6]).
Proof.
  intros H. cbv zeta. unfold para_elems.
  rewrite (par_text_not_blank _ _ _ H), H. reflexivity.
Qed.

Lemma runs_with_text_nonblank (p : paragraph) :
  Forall (fun r => blank (run_text r) = false) (runs_with_text p).
Proof.
  apply Forall_forall. intros r Hr. unfold runs_with_text in Hr.
  apply filter_In in Hr. destruct Hr as [_ Hr]. apply negb_true_iff in Hr.
  exact Hr.
Qed.

(** The mixed loop emits one block per run, in order; the prefix goes to the
    first run only, while [first_run_processed] is still unset. *)
Lemma mixed_runs_blocks (FR : fonts_registered) (base align : Z)
    (is_list : bool) (prefix : pystr) (pidx : nat) (rs : list run) :
  Forall (fun r => blank (run_text r) = false) rs ->
  forall ridx fp,
  List.length (mixed_runs FR base align is_list prefix pidx ridx fp rs)
    = List.length rs /\
  forall i r, nth_error rs i = Some r ->
  let f := get_text_formatting r in
  exists st,
    nth_error (mixed_runs FR base align is_list prefix pidx ridx fp rs) i =
      Some (EPara (wrap_u (underline f)
                     ((if is_list && negb fp && Nat.eqb i 0 then prefix else [])
                      ++ run_text r)) st) /\
    ps_fontName st = get_best_font FR (run_text r) (bold f) (italic f) /\
    ps_fontSize st = Z.max (size f) base /\
    ps_textColor st = hex_to_reportlab_color (color f).
Proof.
  induction 1 as [| r rs Hr Hrs IH]; intros ridx fp.
  - split; [reflexivity |]. intros [|i] r' H; discriminate.
  - simpl mixed_runs. rewrite Hr.
    destruct (andb is_list (negb fp)) eqn:C.
    + destruct (IH (S ridx) true) as [Hl Hn]. split.
      { simpl. rewrite Hl. reflexivity. }
      intros [| i] r' H; simpl in H.
      * injection H as <-. eexists. split; [reflexivity |].
        repeat split; reflexivity.
      * destruct (Hn i r' H) as (st & E & Rest). exists st. simpl.
        rewrite andb_false_r in E. simpl andb in E.
        replace (is_list && false) with false in E by (destruct is_list; reflexivity).
        split; [exact E | exact Rest].
    + destruct (IH (S ridx) fp) as [Hl Hn]. split.
      { simpl. rewrite Hl. reflexivity. }
      intros [| i] r' H; simpl in H.
      * injection H as <-. eexists. split; [reflexivity |].
        repeat split; reflexivity.
      * destruct (Hn i r' H) as (st & E & Rest). exists st. simpl.
        rewrite C in E. simpl in E. split; [exact E | exact Rest].
Qed.

(** ** Story order *)

Definition is_para_block (e : elem) : bool :=
  match e with EPara _ _ => true | _ => false end.
Definition is_table_block (e : elem) : bool :=
  match e with ETable _ _ => true | _ => false end.

Lemma mixed_runs_no_table (FR : fonts_registered) base align is_list prefix
    pidx (rs : list run) : forall ridx fp,
  forallb (fun e => negb (is_table_block e))
    (mixed_runs FR base align is_list prefix pidx ridx fp rs) = true.
Proof.
  induction rs as [| r rs IH]; intros ridx fp; simpl; [reflexivity |].
  destruct (blank (run_text r)); [apply IH |].
  destruct (is_list && negb fp); simpl; apply IH.
Qed.

Lemma para_elems_no_table (FR : fonts_registered) pars idx p :
  forallb (fun e => negb (is_table_block e)) (para_elems FR pars idx p) = true.
Proof.
  unfold para_elems.
  destruct (blank (par_text p)); [reflexivity |]. cbv zeta.
  destruct (runs_with_text p) as [| r0 rest]; [reflexivity |].
  destruct (forallb _ rest); [reflexivity |].
  rewrite forallb_app, mixed_runs_no_table.
  destruct (is_list_item (style_name p)); reflexivity.
Qed.

Lemma paras_story_no_table (FR : fonts_registered) pars ps : forall idx,
  forallb (fun e => negb (is_table_block e)) (paras_story FR pars idx ps) = true.
Proof.
  induction ps as [| p ps IH]; intros idx; simpl; [reflexivity |].
  rewrite forallb_app, para_elems_no_table, IH. reflexivity.
Qed.

Lemma tables_no_para (FR : fonts_registered) (ts : list table) :
  forallb (fun e => negb (is_para_block e)) (flat_map (table_elems FR) ts) = true.
Proof.
  induction ts as [| t ts IH]; simpl; [reflexivity |].
  rewrite forallb_app, IH. unfold table_elems.
  destruct (tbl_rows t) as [| row rows]; [reflexivity |]. reflexivity.
Qed.

Lemma nth_error_forallb {A} (f : A -> bool) (l : list A) (i : nat) (a : A) :
  forallb f l = true -> nth_error l i = Some a -> f a = true.
Proof.
  intros H Hn. rewrite forallb_forall in H. apply H.
  exact (nth_error_In _ _ Hn).
Qed.

(** ** Table grid *)

Definition header_styled (st : list tcmd) : Prop :=
  In {| tc_name := "BACKGROUND"; tc_start := (0, 0); tc_stop := (-1, 0);
        tc_args := [AColor lightgrey] |} st /\
  exists fnt,
    In {| tc_name := "FONTNAME"; tc_start := (0, 0); tc_stop := (-1, 0);
          tc_args := [AStr fnt] |} st /\
    (fnt = "NotoSansGurmukhi-Bold"%string \/ fnt = "Helvetica-Bold"%string).

Lemma table_style_header (FR : fonts_registered) (n : nat) :
  header_styled (table_style FR n) <-> (1 < n)%nat.
Proof.
  unfold header_styled, table_style.
  destruct (Nat.ltb_spec 1 n) as [Hlt | Hge].
  - split; [intros _; exact Hlt |]. intros _. split.
    + apply in_or_app. right. left. reflexivity.
    + exists (if gurmukhi_bold FR then "NotoSansGurmukhi-Bold"%string
              else "Helvetica-Bold"%string).
      split.
      * apply in_or_app. right. right. left. reflexivity.
      * destruct (gurmukhi_bold FR); [left | right]; reflexivity.
  - split; [| lia]. rewrite app_nil_r. intros [Hb _]. exfalso.
    simpl in Hb.
    repeat (destruct Hb as [Hb | Hb]; [injection Hb; intros; discriminate |]).
    exact Hb.
Qed.

Lemma table_elems_shape (FR : fonts_registered) (t : table) :
  tbl_rows t <> [] ->
  exists data,
    table_elems FR t = [ETable data (table_style FR (List.length data));
                        ESpacer 1 12] /\
    data = map (fun row => map cell_content row) (tbl_rows t).
Proof.
  intros H. unfold table_elems.
  destruct (tbl_rows t) as [| row rows]; [contradiction |].
  exists (map (fun row => map cell_content row) (row :: rows)).
  split; reflexivity.
Qed.

Lemma map_map_shape {A B} (g : A -> B) (rows : list (list A)) :
  Forall2 (fun row drow => List.length drow = List.length row)
    rows (map (fun row => map g row) rows).
Proof.
  induction rows as [| row rows IH]; simpl; constructor.
  - apply length_map.
  - exact IH.
Qed.

(** * Claims *)

(** C1: for Gurmukhi text, an italic request always yields the Latin italic
    fallback whatever fonts are registered; otherwise the Gurmukhi bold font
    when bold is requested and registered, else the Gurmukhi regular font
    when registered, else the Latin bold/regular fallback. *)
Theorem get_best_font_gurmukhi_policy (FR : fonts_registered) (text : pystr)
    (is_bold is_italic : bool) :
  (exists c, In c text /\ 2560 <= c <= 2686) ->
  (is_italic = true -> get_best_font FR text is_bold is_italic = latin_italic is_bold) /\
  (is_italic = false -> is_bold = true -> gurmukhi_bold FR = true ->
   get_best_font FR text is_bold is_italic = "NotoSansGurmukhi-Bold"%string) /\
  (is_italic = false -> (is_bold = false \/ gurmukhi_bold FR = false) ->
   gurmukhi_regular FR = true ->
   get_best_font FR text is_bold is_italic = "NotoSansGurmukhi"%string) /\
  (is_italic = false -> (is_bold = false \/ gurmukhi_bold FR = false) ->
   gurmukhi_regular FR = false ->
   get_best_font FR text is_bold is_italic =
     if is_bold then "Helvetica-Bold"%string else "Helvetica"%string).
Proof.
  intros Hg. apply is_gurmukhi_text_some in Hg.
  unfold get_best_font. rewrite Hg.
  repeat split; intros; subst; try reflexivity;
  repeat match goal with
         | H : _ \/ _ |- _ => destruct H as [H | H]; rewrite ?H
         | H : _ = _ |- _ => rewrite H
         end;
  simpl; rewrite ?andb_false_r; try reflexivity;
  destruct is_bold; simpl; rewrite ?H1, ?H0; reflexivity.
Qed.

Lemma get_best_font_gurmukhi_policy_witness :
  get_best_font FR_all sat_sri_akal false true = latin_italic false.
Proof.
  refine (proj1 (get_best_font_gurmukhi_policy FR_all sat_sri_akal false true _)
            eq_refl).
  exists 2616. split; [left; reflexivity | lia].
Defined.

(** C4: the classifier is true iff some character lies in 0x0A00-0x0A7E;
    it is false on [None], on the empty string and on ASCII-only strings. *)
Theorem is_gurmukhi_text_spec :
  (forall s, is_gurmukhi_text (Some s) = true <->
             exists c, In c s /\ 2560 <= c <= 2686) /\
  is_gurmukhi_text None = false /\
  is_gurmukhi_text (Some []) = false /\
  (forall s, Forall (fun c => 0 <= c < 128) s -> is_gurmukhi_text (Some s) = false).
Proof.
  split; [exact is_gurmukhi_text_some |].
  split; [reflexivity |]. split; [reflexivity |].
  intros s Hs. destruct (is_gurmukhi_text (Some s)) eqn:E; [| reflexivity].
  apply is_gurmukhi_text_some in E. destruct E as (c & Hc & Hr).
  rewrite Forall_forall in Hs. specialize (Hs c Hc). lia.
Qed.

Lemma is_gurmukhi_text_spec_witness :
  is_gurmukhi_text (Some (lit "Hello")) = false.
Proof.
  apply (proj2 (proj2 (proj2 is_gurmukhi_text_spec))).
  simpl. repeat (constructor; [lia |]). constructor.
Defined.

(** C10 (counterexample): the malformed five-digit string "12345" does not
    yield black; it parses as the colour (0x12, 0x34, 0x05). *)
Lemma hex_to_reportlab_color_short_input_not_black :
  hex_to_reportlab_color (lit "12345") = RGB 18 52 5 /\
  hex_to_reportlab_color (lit "12345") <> black.
Proof.
  split; [vm_compute; reflexivity |].
  vm_compute. discriminate.
Qed.

(** C10 (amended): the conversion returns a colour for every string; a
    string whose first six characters after one optional leading '#' are
    hexadecimal digits maps to that RGB colour whatever follows; a string
    with at most four characters after the optional '#' yields black. *)
Theorem hex_to_reportlab_color_spec :
  (forall (c1 c2 c3 c4 c5 c6 v1 v2 v3 v4 v5 v6 : Z) (rest : pystr),
     hex_value c1 = Some v1 -> hex_value c2 = Some v2 ->
     hex_value c3 = Some v3 -> hex_value c4 = Some v4 ->
     hex_value c5 = Some v5 -> hex_value c6 = Some v6 ->
     hex_to_reportlab_color (c1 :: c2 :: c3 :: c4 :: c5 :: c6 :: rest) =
       RGB (16 * v1 + v2) (16 * v3 + v4) (16 * v5 + v6) /\
     hex_to_reportlab_color (35 :: c1 :: c2 :: c3 :: c4 :: c5 :: c6 :: rest) =
       RGB (16 * v1 + v2) (16 * v3 + v4) (16 * v5 + v6)) /\
  (forall s : pystr,
     (List.length (if startswith s (lit "#") then tl s else s) <= 4)%nat ->
     hex_to_reportlab_color s = black).
Proof.
  split.
  - intros. split.
    + apply hex_to_reportlab_color_six; assumption.
    + apply hex_to_reportlab_color_hash_six; assumption.
  - exact hex_to_reportlab_color_short.
Qed.

Lemma hex_to_reportlab_color_spec_witness :
  hex_to_reportlab_color (lit "#1a2B3c") = RGB 26 43 60.
Proof.
  apply (proj2 (proj1 hex_to_reportlab_color_spec 49 97 50 66 51 99 1 10 2 11 3 12 []
                  eq_refl eq_refl eq_refl eq_refl eq_refl eq_refl)).
Defined.

(** C5 (counterexample): a bold run whose colour is an [RGBColor] makes the
    colour formatting raise; the exception is swallowed but the returned
    record keeps [bold = true], so it is not the defaults. *)
Lemma get_text_formatting_exception_keeps_bold :
  color_check rgbcolor_run = Some true /\
  color_read rgbcolor_run = None /\
  get_text_formatting rgbcolor_run <> default_fmt /\
  bold (get_text_formatting rgbcolor_run) = true.
Proof.
  split; [reflexivity |]. split; [reflexivity |].
  split; [| reflexivity].
  intros H. apply (f_equal bold) in H. discriminate.
Qed.

(** C5 (amended): the extractor never raises (it returns a [fmt] for every
    run-like object); an object with no formatting attribute yields exactly
    the defaults; when a step raises, the exception is swallowed, the fields
    set by the earlier steps keep their values and the later fields keep
    their defaults. *)
Theorem get_text_formatting_spec :
  (forall t, get_text_formatting (bare_run t) = default_fmt) /\
  (forall r : run,
   let f := get_text_formatting r in
   let ok3 := ok (bold_check r) && ok (italic_check r) && ok (underline_check r) in
   bold f = value_or false (bold_check r) /\
   italic f = (if ok (bold_check r) then value_or false (italic_check r)
               else false) /\
   underline f = (if ok (bold_check r) && ok (italic_check r)
                  then value_or false (underline_check r) else false) /\
   size f = (if ok3 then
               match size_check r, size_read r with
               | Some true, Some z => z
               | _, _ => 12
               end
             else 12) /\
   color f = (if ok3 && size_step_ok r then
                match color_check r, color_read r with
                | Some true, Some c => c
                | _, _ => lit "#000000"
                end
              else lit "#000000")).
Proof.
  split.
  - intros t. reflexivity.
  - exact get_text_formatting_fields.
Qed.

(** C2: a paragraph whose non-blank runs all carry the flags of the first
    one is emitted as ONE block for the whole paragraph text, with the first
    run's font flags, colour and size [max(size, base size)]; a differing
    flag sends it down the mixed path.  Base sizes: Heading 1 18,
    Heading 2 16, Heading 3 14, Title 20, otherwise 12. *)
Theorem uniform_paragraph_one_block (FR : fonts_registered)
    (pars : list paragraph) (idx : nat) (p : paragraph) (r0 : run)
    (rest : list run) :
  runs_with_text p = r0 :: rest ->
  let f0 := get_text_formatting r0 in
  let sname := style_name p in
  ((Forall (fun r => let f := get_text_formatting r in
             bold f = bold f0 /\ italic f = italic f0 /\
             underline f = underline f0) rest ->
    exists st,
      para_elems FR pars idx p =
        [EPara (wrap_u (underline f0) (list_prefix pars idx sname ++ par_text p))
           st] /\
      ps_fontName st = get_best_font FR (par_text p) (bold f0) (italic f0) /\
      ps_fontSize st = Z.max (size f0) (base_size sname) /\
      ps_textColor st = hex_to_reportlab_color (color f0)) /\
   (Exists (fun r => let f := get_text_formatting r in
             bold f <> bold f0 \/ italic f <> italic f0 \/
             underline f <> underline f0) rest ->
    para_elems FR pars idx p =
      mixed_runs FR (base_size sname) (get_paragraph_alignment p)
        (is_list_item sname) (list_prefix pars idx sname) idx 0 false (r0 :: rest)
      ++ (if is_list_item sname then [] else [ESpacer 1 6]))) /\
  base_size (lit "Heading 1") = 18 /\ base_size (lit "Heading 2") = 16 /\
  base_size (lit "Heading 3") = 14 /\ base_size (lit "Title") = 20 /\
  (forall s, contains (lit "Heading 1") s = false ->
     contains (lit "Heading 2") s = false ->
     contains (lit "Heading 3") s = false ->
     contains (lit "Title") s = false -> base_size s = 12).
Proof.
  intros H. cbv zeta. pose proof (para_elems_runs FR pars idx p r0 rest H) as E.
  cbv zeta in E. split; [split |].
  - intros HF. rewrite E, (uniform_test_true _ _ HF).
    eexists. split; [reflexivity |]. repeat split; reflexivity.
  - intros HX. rewrite E, (uniform_test_false _ _ HX). reflexivity.
  - repeat split; try reflexivity.
    intros s H1 H2 H3 H4. unfold base_size. rewrite H1, H2, H3, H4.
    reflexivity.
Qed.

Lemma uniform_paragraph_one_block_witness :
  exists st,
    para_elems FR_none [simple_par "Normal" [plain_run "a" PTrue; plain_run "b" PTrue]]
      0 (simple_par "Normal" [plain_run "a" PTrue; plain_run "b" PTrue]) =
    [EPara (lit "ab") st].
Proof.
  destruct (proj1 (proj1 (uniform_paragraph_one_block FR_none
              [simple_par "Normal" [plain_run "a" PTrue; plain_run "b" PTrue]] 0
              (simple_par "Normal" [plain_run "a" PTrue; plain_run "b" PTrue])
              (plain_run "a" PTrue) [plain_run "b" PTrue] eq_refl)))
    as (st & E & _).
  - repeat constructor.
  - exists st. exact E.
Defined.

(** C3 (counterexample): a mixed bullet item is followed by no spacer. *)
Lemma mixed_list_paragraph_no_spacer :
  forallb (fun r => same_flags (get_text_formatting r)
                      (get_text_formatting (plain_run "a" PTrue)))
          [plain_run "b" PFalse] = false /\
  List.length (para_elems FR_none [mixed_bullet] 0 mixed_bullet) = 2%nat /\
  (forall w h, ~ In (ESpacer w h) (para_elems FR_none [mixed_bullet] 0 mixed_bullet)).
Proof.
  split; [reflexivity |]. split; [reflexivity |].
  intros w h Hin. vm_compute in Hin.
  repeat (destruct Hin as [Hin | Hin]; [discriminate |]). exact Hin.
Qed.

(** C3 (amended): a mixed paragraph yields one block per non-blank run, in
    order, each with its own font, size and colour, the list prefix on the
    first block only (list styles); the blocks are followed by a spacer
    exactly when the style name does not contain "List"; the uniform path
    emits no spacer. *)
Theorem mixed_paragraph_blocks (FR : fonts_registered) (pars : list paragraph)
    (idx : nat) (p : paragraph) (r0 : run) (rest : list run) :
  runs_with_text p = r0 :: rest ->
  let f0 := get_text_formatting r0 in
  let sname := style_name p in
  (Exists (fun r => let f := get_text_formatting r in
            bold f <> bold f0 \/ italic f <> italic f0 \/
            underline f <> underline f0) rest ->
   exists blocks,
     para_elems FR pars idx p =
       blocks ++ (if is_list_item sname then [] else [ESpacer 1 6]) /\
     List.length blocks = List.length (r0 :: rest) /\
     forall i r, nth_error (r0 :: rest) i = Some r ->
     let f := get_text_formatting r in
     exists st,
       nth_error blocks i =
         Some (EPara (wrap_u (underline f)
                        ((if is_list_item sname && Nat.eqb i 0
                          then list_prefix pars idx sname else []) ++ run_text r))
                st) /\
       ps_fontName st = get_best_font FR (run_text r) (bold f) (italic f) /\
       ps_fontSize st = Z.max (size f) (base_size sname) /\
       ps_textColor st = hex_to_reportlab_color (color f)) /\
  (Forall (fun r => let f := get_text_formatting r in
            bold f = bold f0 /\ italic f = italic f0 /\
            underline f = underline f0) rest ->
   forall w h, ~ In (ESpacer w h) (para_elems FR pars idx p)).
Proof.
  intros H. cbv zeta. pose proof (para_elems_runs FR pars idx p r0 rest H) as E.
  cbv zeta in E. split.
  - intros HX. rewrite E, (uniform_test_false _ _ HX).
    eexists. split; [reflexivity |].
    assert (HN := runs_with_text_nonblank p). rewrite H in HN.
    destruct (mixed_runs_blocks FR (base_size (style_name p))
                (get_paragraph_alignment p) (is_list_item (style_name p))
                (list_prefix pars idx (style_name p)) idx (r0 :: rest) HN 0 false)
      as [Hl Hn].
    split; [exact Hl |]. intros i r Hr. cbv zeta.
    destruct (Hn i r Hr) as (st & Ei & Rest). exists st.
    rewrite andb_true_r in Ei. exact (conj Ei Rest).
  - intros HF w h Hin. rewrite E, (uniform_test_true _ _ HF) in Hin.
    destruct Hin as [Hin | []]. discriminate.
Qed.

Lemma mixed_paragraph_blocks_witness :
  exists blocks,
    para_elems FR_none [mixed_bullet] 0 mixed_bullet = blocks ++ [] /\
    List.length blocks = 2%nat.
Proof.
  destruct (proj1 (mixed_paragraph_blocks FR_none [mixed_bullet] 0 mixed_bullet
                     (plain_run "a" PTrue) [plain_run "b" PFalse] eq_refl))
    as (blocks & E & L & _).
  - constructor. simpl. left. discriminate.
  - exists blocks. split; [exact E | exact L].
Defined.

(** Marked as a numbered list item by the code. *)
Definition numbered_style (s : pystr) : bool :=
  is_list_item s && negb (contains (lit "Bullet") s) && contains (lit "Number") s.

(** C6 (counterexample): of two consecutive paragraphs with the same
    numbered-list style "Numbered List", the second is prefixed "1. ", not
    "2. ": the counter only counts styles containing "List Number". *)
Lemma numbered_style_not_counted :
  numbered_style (style_name numbered_item) = true /\
  nth_error numbered_pars 0 = Some numbered_item /\
  list_prefix numbered_pars 1 (style_name numbered_item) = lit "1. " /\
  list_prefix numbered_pars 1 (style_name numbered_item) <> str_of_nat 2 ++ lit ". ".
Proof.
  split; [reflexivity |]. split; [reflexivity |]. split; [reflexivity |].
  vm_compute. discriminate.
Qed.

(** C6 (amended): a numbered list item (style name containing "List" and
    "Number" but not "Bullet") is prefixed "N. ", N being one plus the number
    of earlier paragraphs of the document, blank ones included, whose style
    name contains "List Number" (one flat counter); the prefix opens the
    first block emitted for the paragraph. *)
Theorem numbered_item_prefix (FR : fonts_registered) (pars : list paragraph)
    (idx : nat) (p : paragraph) (r0 : run) (rest : list run) :
  runs_with_text p = r0 :: rest ->
  numbered_style (style_name p) = true ->
  let N := str_of_nat (S (List.length
             (filter (fun q => contains (lit "List Number") (style_name_or_empty q))
                     (firstn idx pars)))) ++ lit ". " in
  list_prefix pars idx (style_name p) = N /\
  exists u x st, nth_error (para_elems FR pars idx p) 0 =
                 Some (EPara (wrap_u u (N ++ x)) st).
Proof.
  intros H Hn. cbv zeta.
  unfold numbered_style in Hn. apply andb_true_iff in Hn.
  destruct Hn as [Hn HN]. apply andb_true_iff in Hn. destruct Hn as [HL HB].
  apply negb_true_iff in HB.
  assert (HP : list_prefix pars idx (style_name p) =
               str_of_nat (S (list_number pars idx)) ++ lit ". ").
  { unfold list_prefix. rewrite HL, HB, HN. reflexivity. }
  split; [exact HP |].
  pose proof (para_elems_runs FR pars idx p r0 rest H) as E. cbv zeta in E.
  rewrite E.
  destruct (forallb _ rest).
  - rewrite HP. exists (underline (get_text_formatting r0)), (par_text p).
    eexists. reflexivity.
  - assert (HNb := runs_with_text_nonblank p). rewrite H in HNb.
    destruct (mixed_runs_blocks FR (base_size (style_name p))
                (get_paragraph_alignment p) (is_list_item (style_name p))
                (list_prefix pars idx (style_name p)) idx (r0 :: rest) HNb 0 false)
      as [Hl Hnth].
    destruct (Hnth 0%nat r0 eq_refl) as (st & E0 & _).
    rewrite HL, HP in E0. cbn [andb negb Nat.eqb] in E0.
    rewrite nth_error_app1 by (rewrite Hl; simpl; lia).
    exists (underline (get_text_formatting r0)), (run_text r0), st.
    rewrite HL, HP. exact E0.
Qed.

Lemma numbered_item_prefix_witness :
  list_prefix numbered_pars 1 (style_name numbered_item) = lit "1. ".
Proof.
  apply (proj1 (numbered_item_prefix FR_none numbered_pars 1 numbered_item
                  (plain_run "x" PNone) [] eq_refl eq_refl)).
Defined.

(** C7: the story is the paragraph elements in document order followed by
    the table elements in document order, so every table block comes after
    every paragraph block, wherever the table sits in reading order. *)
Theorem story_tables_after_paragraphs (FR : fonts_registered) (body : list block) :
  story FR body =
    paras_story FR (doc_paragraphs body) 0 (doc_paragraphs body)
    ++ flat_map (table_elems FR) (doc_tables body) /\
  (forall i j t st d st',
     nth_error (story FR body) i = Some (EPara t st) ->
     nth_error (story FR body) j = Some (ETable d st') ->
     (i < j)%nat).
Proof.
  split; [reflexivity |].
  intros i j t st d st' Hi Hj. unfold story in Hi, Hj.
  set (P := paras_story FR (doc_paragraphs body) 0 (doc_paragraphs body)) in *.
  set (T := flat_map (table_elems FR) (doc_tables body)) in *.
  assert (HP := paras_story_no_table FR (doc_paragraphs body)
                  (doc_paragraphs body) 0).
  assert (HT := tables_no_para FR (doc_tables body)). fold P in HP. fold T in HT.
  assert (Ii : (i < List.length P)%nat).
  { destruct (Nat.lt_ge_cases i (List.length P)) as [L | L]; [exact L |].
    rewrite nth_error_app2 in Hi by exact L.
    pose proof (nth_error_forallb _ _ _ _ HT Hi). discriminate. }
  assert (Ij : (List.length P <= j)%nat).
  { destruct (Nat.lt_ge_cases j (List.length P)) as [L | L]; [| exact L].
    rewrite nth_error_app1 in Hj by exact L.
    pose proof (nth_error_forallb _ _ _ _ HP Hj). discriminate. }
  lia.
Qed.

Lemma story_tables_after_paragraphs_witness :
  exists t st d st',
    nth_error (story FR_none table_first_body) 0 = Some (EPara t st) /\
    nth_error (story FR_none table_first_body) 1 = Some (ETable d st') /\
    (0 < 1)%nat.
Proof.
  do 4 eexists. split; [reflexivity |]. split; [reflexivity |].
  eapply (proj2 (story_tables_after_paragraphs FR_none table_first_body));
    reflexivity.
Defined.

(** C8: a table with at least one row becomes one grid with one row per
    source row and one cell per source cell, followed by a spacer; the first
    row is styled as a header (light grey background, bold font) iff the
    table has more than one row. *)
Theorem table_grid_shape (FR : fonts_registered) (t : table) :
  tbl_rows t <> [] ->
  exists data st,
    table_elems FR t = [ETable data st; ESpacer 1 12] /\
    List.length data = List.length (tbl_rows t) /\
    Forall2 (fun row drow => List.length drow = List.length row) (tbl_rows t) data /\
    (header_styled st <-> (1 < List.length (tbl_rows t))%nat).
Proof.
  intros H. destruct (table_elems_shape FR t H) as (data & E & Hd).
  exists data, (table_style FR (List.length data)).
  split; [exact E |].
  assert (L : List.length data = List.length (tbl_rows t))
    by (rewrite Hd; apply length_map).
  split; [exact L |]. split.
  - rewrite Hd. apply map_map_shape.
  - rewrite table_style_header, L. reflexivity.
Qed.

Lemma table_grid_shape_witness :
  exists data st,
    table_elems FR_none table_2x3 = [ETable data st; ESpacer 1 12] /\
    List.length data = 2%nat /\
    Forall (fun drow => List.length drow = 3%nat) data /\ header_styled st.
Proof.
  destruct (table_grid_shape FR_none table_2x3 ltac:(discriminate))
    as (data & st & E & L & F & Hh).
  exists data, st. split; [exact E |]. split; [exact L |]. split.
  - simpl in F. inversion F as [| r1 d1 rows1 ds1 H1 F1]; subst.
    inversion F1 as [| r2 d2 rows2 ds2 H2 F2]; subst.
    inversion F2; subst. repeat constructor; assumption.
  - apply Hh. simpl. lia.
Defined.

(** C9 (code_bug): when [Document] raises, the conversion returns no PDF and
    reports the error, but the temporary .docx file it created is still on
    disk: [os.unlink] only runs on the success path. *)
Theorem convert_failure_keeps_temp_file
    (Document : list Z -> pystr + list block) (build : list elem -> pystr + list Z)
    (FR : fonts_registered) (docx_bytes : list Z) (s : fs_state) (e : pystr) :
  Document docx_bytes = inl e ->
  let '(res, s') := convert_docx_to_pdf Document build FR docx_bytes s in
  res = None /\
  messages s' = messages s ++ [lit "Conversion error: " ++ e; lit "Details: " ++ e] /\
  In (next_tmp s) (files s').
Proof.
  intros H. unfold convert_docx_to_pdf. rewrite H. simpl.
  split; [reflexivity |]. split; [reflexivity |]. left. reflexivity.
Qed.

Lemma convert_failure_keeps_temp_file_witness :
  fst (convert_docx_to_pdf unreadable_docx no_pdf FR_none (lit "not a docx") fs0)
    = None /\
  files (snd (convert_docx_to_pdf unreadable_docx no_pdf FR_none (lit "not a docx") fs0))
    = [0%nat].
Proof.
  pose proof (convert_failure_keeps_temp_file unreadable_docx no_pdf FR_none
                (lit "not a docx") fs0 (lit "File is not a zip file") eq_refl) as K.
  destruct (convert_docx_to_pdf unreadable_docx no_pdf FR_none (lit "not a docx") fs0)
    as [res s'] eqn:E.
  destruct K as (R & _ & _). split; [exact R |].
  vm_compute in E. injection E as _ <-. reflexivity.
Defined.

(** On the success path the same temporary file is deleted. *)
Lemma convert_success_removes_temp_file
    (Document : list Z -> pystr + list block) (build : list elem -> pystr + list Z)
    (FR : fonts_registered) (docx_bytes : list Z) (s : fs_state)
    (body : list block) (pdf : list Z) :
  Document docx_bytes = inr body ->
  build (story FR body) = inr pdf ->
  let '(res, s') := convert_docx_to_pdf Document build FR docx_bytes s in
  res = Some pdf /\ ~ In (next_tmp s) (files s').
Proof.
  intros H1 H2. unfold convert_docx_to_pdf. rewrite H1, H2.
  split; [reflexivity |]. exact (remove_In Nat.eq_dec (next_tmp s :: files s) (next_tmp s)).
Qed.

(** * Further properties *)

(** ** Hexadecimal colours: [f"#{rgb:06x}"] read back by [hex_to_reportlab_color] *)


Lemma pad_hex_length (k : nat) (n : Z) : List.length (pad_hex k n) = k.
Proof.
  revert n. induction k as [| k IH]; intros n; simpl; [reflexivity |].
  rewrite length_app, IH. simpl. lia.
Qed.

Lemma pad_hex_zero (k : nat) : pad_hex k 0 = repeat 48 k.
Proof.
  induction k as [| k IH]; [reflexivity |].
  change (pad_hex (S k) 0) with (pad_hex k (0 / 16) ++ [hex_char (0 mod 16)]).
  change (0 / 16) with 0. change (hex_char (0 mod 16)) with 48. rewrite IH.
  replace (S k) with (k + 1)%nat by lia. rewrite repeat_app. reflexivity.
Qed.

Lemma hex_digits_aux_pad (k : nat) : forall f n acc,
  0 <= n < 16 ^ Z.of_nat (S k) -> n < 16 ^ Z.of_nat (S f) ->
  exists j, (j <= k)%nat /\
    repeat 48 j ++ hex_digits_aux (S f) n acc = pad_hex (S k) n ++ acc.
Proof.
  induction k as [| k IH]; intros f n acc Hn Hf;
  change (hex_digits_aux (S f) n acc) with
    (if n / 16 =? 0 then hex_char (n mod 16) :: acc
     else hex_digits_aux f (n / 16) (hex_char (n mod 16) :: acc)).
  - exists 0%nat. split; [lia |].
    assert (Hd : n / 16 = 0) by (apply Z.div_small; simpl in Hn; lia).
    rewrite Hd. reflexivity.
  - destruct (Z.eqb_spec (n / 16) 0) as [Hd | Hd].
    + exists (S k). split; [lia |].
      change (pad_hex (S (S k)) n) with (pad_hex (S k) (n / 16) ++ [hex_char (n mod 16)]).
      rewrite Hd, pad_hex_zero, <- app_assoc. reflexivity.
    + assert (Hq : 0 <= n / 16 < 16 ^ Z.of_nat (S k)).
      { split; [apply Z.div_pos; lia |].
        apply Z.div_lt_upper_bound; [lia |].
        rewrite <- Z.pow_succ_r by lia. rewrite <- Nat2Z.inj_succ. lia. }
      destruct f as [| f].
      { exfalso. simpl in Hf.
        assert (n / 16 < 1) by (apply Z.div_lt_upper_bound; lia).
        assert (0 <= n / 16) by (apply Z.div_pos; lia). lia. }
      assert (Hf' : n / 16 < 16 ^ Z.of_nat (S f)).
      { apply Z.div_lt_upper_bound; [lia |].
        rewrite <- Z.pow_succ_r by lia. rewrite <- Nat2Z.inj_succ. exact Hf. }
      destruct (IH f (n / 16) (hex_char (n mod 16) :: acc) Hq Hf') as (j & Hj & E).
      exists j. split; [lia |]. rewrite E.
      change (pad_hex (S (S k)) n) with (pad_hex (S k) (n / 16) ++ [hex_char (n mod 16)]).
      rewrite <- app_assoc. reflexivity.
Qed.

Lemma format_06x_pad (n : Z) :
  0 <= n < 16 ^ 6 -> format_06x n = pad_hex 6 n.
Proof.
  intros Hn. unfold format_06x.
  destruct (Z.ltb_spec n 0) as [Hneg | _]; [lia |].
  unfold hex_digits.
  assert (Hfuel : n < 16 ^ Z.of_nat (S (Z.to_nat (Z.log2 n)))).
  { rewrite Nat2Z.inj_succ, Z2Nat.id by apply Z.log2_nonneg.
    destruct (Z.eq_dec n 0) as [-> | Hn0]; [reflexivity |].
    apply Z.lt_le_trans with (2 ^ Z.succ (Z.log2 n)).
    - apply Z.log2_spec. lia.
    - apply Z.pow_le_mono_l. split; [lia |]. lia. }
  destruct (hex_digits_aux_pad 5 _ n [] Hn Hfuel) as (j & Hj & E).
  rewrite app_nil_r in E.
  assert (Hl : (j + List.length (hex_digits_aux (S (Z.to_nat (Z.log2 n))) n []))%nat = 6%nat).
  { rewrite <- (pad_hex_length 6 n), <- E, length_app, repeat_length. reflexivity. }
  unfold zero_pad. rewrite <- E. f_equal. f_equal. lia.
Qed.

Lemma hex_value_hex_char (d : Z) : 0 <= d < 16 -> hex_value (hex_char d) = Some d.
Proof.
  intros Hd.
  assert (d = 0 \/ d = 1 \/ d = 2 \/ d = 3 \/ d = 4 \/ d = 5 \/ d = 6 \/ d = 7 \/
          d = 8 \/ d = 9 \/ d = 10 \/ d = 11 \/ d = 12 \/ d = 13 \/ d = 14 \/ d = 15)
    as H by lia.
  repeat (destruct H as [-> | H]; [reflexivity |]). subst. reflexivity.
Qed.

Lemma hex_pairs (n : Z) : 0 <= n < 16 ^ 6 ->
  16 * (n / 16 / 16 / 16 / 16 / 16 mod 16) + n / 16 / 16 / 16 / 16 mod 16 = n / 65536 /\
  16 * (n / 16 / 16 / 16 mod 16) + n / 16 / 16 mod 16 = n / 256 mod 256 /\
  16 * (n / 16 mod 16) + n mod 16 = n mod 256.
Proof.
  intros Hn.
  assert (Q2 : n / 16 / 16 = n / 256) by (rewrite Z.div_div by lia; reflexivity).
  assert (Q3 : n / 256 / 16 = n / 4096) by (rewrite Z.div_div by lia; reflexivity).
  assert (Q4 : n / 4096 / 16 = n / 65536) by (rewrite Z.div_div by lia; reflexivity).
  assert (Q5 : n / 65536 / 16 = n / 1048576) by (rewrite Z.div_div by lia; reflexivity).
  repeat (rewrite Q2 || rewrite Q3 || rewrite Q4 || rewrite Q5).
  pose proof (Z.div_mod n 16 ltac:(lia)) as D1.
  pose proof (Z.div_mod (n / 16) 16 ltac:(lia)) as D2. rewrite Q2 in D2.
  pose proof (Z.div_mod (n / 256) 16 ltac:(lia)) as D3. rewrite Q3 in D3.
  pose proof (Z.div_mod (n / 4096) 16 ltac:(lia)) as D4. rewrite Q4 in D4.
  pose proof (Z.div_mod (n / 65536) 16 ltac:(lia)) as D5. rewrite Q5 in D5.
  pose proof (Z.mod_pos_bound n 16 ltac:(lia)).
  pose proof (Z.mod_pos_bound (n / 16) 16 ltac:(lia)).
  pose proof (Z.mod_pos_bound (n / 256) 16 ltac:(lia)).
  pose proof (Z.mod_pos_bound (n / 4096) 16 ltac:(lia)).
  pose proof (Z.mod_pos_bound (n / 65536) 16 ltac:(lia)).
  assert (H5 : 0 <= n / 1048576 < 16).
  { split; [apply Z.div_pos; lia |]. apply Z.div_lt_upper_bound; lia. }
  rewrite (Z.mod_small (n / 1048576)) by exact H5.
  split; [| split].
  - lia.
  - apply Z.mod_unique with (q := n / 65536); lia.
  - apply Z.mod_unique with (q := n / 256); lia.
Qed.

(** ** Fonts and sizes of the story *)


Lemma get_best_font_available (FR : fonts_registered) (text : pystr) (b i : bool) :
  font_available FR (get_best_font FR text b i).
Proof.
  unfold get_best_font, font_available.
  destruct (is_gurmukhi_text (Some text)), b, i; simpl;
    try (destruct (gurmukhi_bold FR) eqn:GB); simpl;
    try (destruct (gurmukhi_regular FR) eqn:GR); simpl;
    tauto.
Qed.

Lemma base_size_ge_12 (s : pystr) : 12 <= base_size s.
Proof.
  unfold base_size.
  destruct (contains (lit "Heading 1") s); [lia |].
  destruct (contains (lit "Heading 2") s); [lia |].
  destruct (contains (lit "Heading 3") s); [lia |].
  destruct (contains (lit "Title") s); lia.
Qed.


Lemma mixed_runs_styles (FR : fonts_registered) base align is_list prefix pidx
    (rs : list run) : forall ridx fp e,
  In e (mixed_runs FR base align is_list prefix pidx ridx fp rs) ->
  exists t st, e = EPara t st /\ para_style_ok FR base st.
Proof.
  induction rs as [| r rs IH]; intros ridx fp e H; simpl in H; [contradiction |].
  destruct (blank (run_text r)); [exact (IH _ _ _ H) |].
  destruct (is_list && negb fp); simpl in H;
    (destruct H as [<- | H]; [| exact (IH _ _ _ H)]);
    (eexists; eexists; split; [reflexivity |]);
    (split; [do 3 eexists; reflexivity | split; [eexists; reflexivity | reflexivity]]).
Qed.

Lemma para_elems_styles (FR : fonts_registered) pars idx p e :
  In e (para_elems FR pars idx p) ->
  e = ESpacer 1 6 \/
  exists t st, e = EPara t st /\ para_style_ok FR (base_size (style_name p)) st.
Proof.
  unfold para_elems. destruct (blank (par_text p)); [contradiction |]. cbv zeta.
  destruct (runs_with_text p) as [| r0 rest]; [contradiction |].
  destruct (forallb _ rest).
  - intros [<- | []]. right. eexists; eexists; split; [reflexivity |].
    split; [do 3 eexists; reflexivity | split; [eexists; reflexivity | reflexivity]].
  - intros H. apply in_app_or in H. destruct H as [H | H].
    + right. exact (mixed_runs_styles _ _ _ _ _ _ _ _ _ _ H).
    + left. destruct (is_list_item (style_name p)); [contradiction |].
      destruct H as [<- | []]. reflexivity.
Qed.

Lemma paras_story_from (FR : fonts_registered) pars ps : forall idx e,
  In e (paras_story FR pars idx ps) ->
  exists i p, In e (para_elems FR pars i p).
Proof.
  induction ps as [| p ps IH]; intros idx e H; simpl in H; [contradiction |].
  apply in_app_or in H. destruct H as [H | H].
  - exists idx, p. exact H.
  - exact (IH _ _ H).
Qed.

Lemma story_from (FR : fonts_registered) (body : list block) e :
  In e (story FR body) ->
  (exists pars i p, In e (para_elems FR pars i p)) \/
  (exists t, In e (table_elems FR t)).
Proof.
  unfold story. intros H. apply in_app_or in H. destruct H as [H | H].
  - left. destruct (paras_story_from _ _ _ _ _ H) as (i & p & Hp).
    exists (doc_paragraphs body), i, p. exact Hp.
  - right. apply in_flat_map in H. destruct H as (t & _ & Ht). exists t. exact Ht.
Qed.

Lemma table_elems_from (FR : fonts_registered) t e :
  In e (table_elems FR t) ->
  e = ESpacer 1 12 \/ exists data, e = ETable data (table_style FR (List.length data)).
Proof.
  unfold table_elems. destruct (tbl_rows t) as [| row rows]; [contradiction |].
  simpl. intros [<- | [<- | []]].
  - right. exists (map (fun row => map cell_content row) (row :: rows)). reflexivity.
  - left. reflexivity.
Qed.

Lemma table_style_fonts (FR : fonts_registered) n c f :
  In c (table_style FR n) -> tc_name c = "FONTNAME"%string ->
  In (AStr f) (tc_args c) -> font_available FR f.
Proof.
  unfold table_style, font_available. intros Hc Hn Ha.
  apply in_app_or in Hc. destruct Hc as [Hc | Hc].
  - simpl in Hc.
    repeat (destruct Hc as [<- | Hc]; [simpl in Hn; try discriminate |]);
      [| contradiction].
    simpl in Ha. destruct Ha as [Ha | []]. injection Ha as <-.
    destruct (gurmukhi_regular FR) eqn:G; tauto.
  - destruct (1 <? n)%nat; [| contradiction]. simpl in Hc.
    repeat (destruct Hc as [<- | Hc]; [simpl in Hn; try discriminate |]);
      [| contradiction].
    simpl in Ha. destruct Ha as [Ha | []]. injection Ha as <-.
    destruct (gurmukhi_bold FR) eqn:G; tauto.
Qed.

(** X: a run colour read as an integer 0 <= n < 2^24 is formatted by
   [f"#{n:06x}"] as a 7-character string that [hex_to_reportlab_color] reads
   back as the RGB components of n. *)
Theorem format_rgb_round_trip (n : Z) :
  0 <= n < 16777216 ->
  exists s, format_rgb (RgbInt n) = Some s /\ List.length s = 7%nat /\
    hex_to_reportlab_color s = RGB (n / 65536) (n / 256 mod 256) (n mod 256).
Proof.
  intros Hn. exists (35 :: format_06x n). split; [reflexivity |].
  assert (Hn' : 0 <= n < 16 ^ 6) by (change (16 ^ 6) with 16777216; exact Hn).
  rewrite (format_06x_pad n Hn'). split.
  { cbn [List.length]. rewrite pad_hex_length. reflexivity. }
  change (pad_hex 6 n) with
    [hex_char (n / 16 / 16 / 16 / 16 / 16 mod 16); hex_char (n / 16 / 16 / 16 / 16 mod 16);
     hex_char (n / 16 / 16 / 16 mod 16); hex_char (n / 16 / 16 mod 16);
     hex_char (n / 16 mod 16); hex_char (n mod 16)].
  destruct (hex_pairs n Hn') as (P1 & P2 & P3).
  rewrite (hex_to_reportlab_color_hash_six _ _ _ _ _ _
             (n / 16 / 16 / 16 / 16 / 16 mod 16) (n / 16 / 16 / 16 / 16 mod 16)
             (n / 16 / 16 / 16 mod 16) (n / 16 / 16 mod 16)
             (n / 16 mod 16) (n mod 16) []);
    try (apply hex_value_hex_char; apply Z.mod_pos_bound; lia).
  rewrite P1, P2, P3. reflexivity.
Qed.

Lemma format_rgb_round_trip_witness :
  exists s, format_rgb (RgbInt 16744448) = Some s /\ List.length s = 7%nat /\
    hex_to_reportlab_color s = RGB 255 128 0.
Proof. apply (format_rgb_round_trip 16744448). lia. Defined.

(** X: every font the story names (paragraph styles and table FONTNAME
   commands) is a Helvetica variant or a Gurmukhi font that has been
   registered. *)
Theorem story_fonts_available (FR : fonts_registered) (body : list block) (e : elem) :
  In e (story FR body) ->
  match e with
  | EPara _ st => font_available FR (ps_fontName st)
  | ETable _ cmds =>
      forall c f, In c cmds -> tc_name c = "FONTNAME"%string ->
      In (AStr f) (tc_args c) -> font_available FR f
  | ESpacer _ _ => True
  end.
Proof.
  intros H. destruct (story_from _ _ _ H) as [(pars & i & p & Hp) | (t & Ht)].
  - destruct (para_elems_styles _ _ _ _ _ Hp) as [-> | (t & st & -> & (txt & b & it & Hf) & _)].
    + exact I.
    + rewrite Hf. apply get_best_font_available.
  - destruct (table_elems_from _ _ _ Ht) as [-> | (data & ->)].
    + exact I.
    + intros c f Hc Hn Ha. exact (table_style_fonts _ _ _ _ Hc Hn Ha).
Qed.

(** X: every paragraph block of the story has a font size of at least 12
   points and a leading of 1.2 times its font size. *)
Theorem story_min_font_size (FR : fonts_registered) (body : list block)
    (t : pystr) (st : pstyle) :
  In (EPara t st) (story FR body) ->
  12 <= ps_fontSize st /\ ps_leading10 st = ps_fontSize st * 12.
Proof.
  intros H. destruct (story_from _ _ _ H) as [(pars & i & p & Hp) | (tb & Ht)].
  - destruct (para_elems_styles _ _ _ _ _ Hp) as [E | (t' & st' & E & _ & (sz & Hs) & Hl)];
      [discriminate |].
    injection E as <- <-. split; [| exact Hl].
    rewrite Hs. pose proof (base_size_ge_12 (style_name p)). lia.
  - destruct (table_elems_from _ _ _ Ht) as [E | (data & E)]; discriminate.
Qed.

(** ** Paragraph alignment *)

(** X: the alignment is always one of TA_LEFT, TA_CENTER, TA_RIGHT,
   TA_JUSTIFY; justify comes exactly from Word value 3, and values outside
   0..3 fall back to left. *)
Theorem get_paragraph_alignment_cases (p : paragraph) :
  In (get_paragraph_alignment p) [0; 1; 2; 4] /\
  (get_paragraph_alignment p = 4 <-> par_alignment p = Some 3) /\
  (forall a, par_alignment p = Some a -> (a < 0 \/ 3 < a) ->
   get_paragraph_alignment p = 0).
Proof.
  unfold get_paragraph_alignment.
  destruct (par_alignment p) as [a |].
  - destruct a as [| [[q | q |] | [q | q |] |] | q];
      try (destruct q);
      (split; [simpl; tauto |]);
      (split; [split; intros H; try discriminate; try (injection H; lia); reflexivity |]);
      intros a' H Ha; injection H as <-; (reflexivity || lia).
  - split; [simpl; tauto |]. split; [split; discriminate |].
    intros a' H. discriminate.
Qed.

(** ** Paragraphs that emit nothing *)

(** X: a paragraph contributes no element to the story exactly when none of
   its runs has non-whitespace text. *)
Theorem para_elems_nil_iff (FR : fonts_registered) (pars : list paragraph)
    (idx : nat) (p : paragraph) :
  para_elems FR pars idx p = [] <-> runs_with_text p = [].
Proof.
  split.
  - intros H. destruct (runs_with_text p) as [| r0 rest] eqn:R; [reflexivity |].
    exfalso. rewrite (para_elems_runs FR pars idx p r0 rest R) in H.
    destruct (forallb _ rest); [discriminate |].
    assert (HF : Forall (fun r => blank (run_text r) = false) (r0 :: rest)).
    { rewrite <- R. apply runs_with_text_nonblank. }
    destruct (mixed_runs_blocks FR (base_size (style_name p))
                (get_paragraph_alignment p) (is_list_item (style_name p))
                (list_prefix pars idx (style_name p)) idx (r0 :: rest) HF 0%nat false)
      as [Hl _].
    apply app_eq_nil in H. destruct H as [H _]. rewrite H in Hl. discriminate.
  - intros H. unfold para_elems. rewrite H.
    destruct (blank (par_text p)); reflexivity.
Qed.

(** ** Bold detection *)

(** X: a run is bold exactly when [run.bold is True], or [run.bold] does not
   raise and [run.font.bold is True]. *)
Theorem get_text_formatting_bold_iff (r : run) :
  bold (get_text_formatting r) = true <->
  run_bold r = Val PTrue \/
  (run_bold r <> Boom /\ exists f, run_font r = Val f /\ font_bold f = Val PTrue).
Proof.
  destruct (get_text_formatting_fields r) as [Hb _]. simpl in Hb. rewrite Hb.
  unfold bold_check, flag_check.
  destruct (run_bold r) as [| [| |] |];
  destruct (run_font r) as [| f |]; simpl;
  try destruct (font_bold f) as [| [| |] |] eqn:FB;
  simpl; split; intros H;
  try discriminate;
  try (left; reflexivity);
  try (right; split; [discriminate | exists f; split; [reflexivity | exact FB]]);
  try reflexivity;
  destruct H as [H | (H1 & f' & H2 & H3)]; try discriminate;
  try (injection H2 as <-; congruence);
  try congruence.
Qed.

(** ** Font registration *)

(** X: [register_fonts] never clears a registration flag, and sets one only
   after the matching font file was downloaded and registered. *)
Theorem register_fonts_monotone (regular_path bold_path : option pystr)
    (register_ok : pystr -> bool) (FR : fonts_registered) :
  let FR' := fst (register_fonts regular_path bold_path register_ok FR) in
  (gurmukhi_regular FR = true -> gurmukhi_regular FR' = true) /\
  (gurmukhi_bold FR = true -> gurmukhi_bold FR' = true) /\
  (gurmukhi_regular FR' = true -> gurmukhi_regular FR = true \/
     exists path, regular_path = Some path /\ truthy path = true /\
                  register_ok path = true) /\
  (gurmukhi_bold FR' = true -> gurmukhi_bold FR = true \/
     exists path, bold_path = Some path /\ truthy path = true /\
                  register_ok path = true).
Proof.
  cbv zeta. unfold register_fonts.
  destruct regular_path as [rp |]; [destruct (truthy rp) eqn:T1; [destruct (register_ok rp) eqn:O1 |] |];
  (destruct bold_path as [bp |]; [destruct (truthy bp) eqn:T2; [destruct (register_ok bp) eqn:O2 |] |]);
  simpl; repeat split; intros H; auto;
  try (right; eexists; repeat split; eassumption).
Qed.

(** X: when registering the downloaded regular font raises, the bold font is
   not registered in that call and one error is shown. *)
Theorem register_fonts_regular_failure (regular_path bold_path : option pystr)
    (register_ok : pystr -> bool) (FR : fonts_registered) (path : pystr) :
  regular_path = Some path -> truthy path = true -> register_ok path = false ->
  register_fonts regular_path bold_path register_ok FR =
    (FR, [lit "Font registration error"]).
Proof.
  intros -> T O. unfold register_fonts. rewrite T, O. reflexivity.
Qed.

(** ** Download names *)

Lemma split_slash_no_slash (s cur : pystr) :
  ~ In 47 s -> split_slash s cur = [rev cur ++ s].
Proof.
  revert cur. induction s as [| c s IH]; intros cur H; simpl.
  - rewrite app_nil_r. reflexivity.
  - destruct (Z.eqb_spec c 47) as [-> | Hc]; [exfalso; apply H; left; reflexivity |].
    rewrite IH by (intros Hin; apply H; right; exact Hin).
    simpl. rewrite <- app_assoc. reflexivity.
Qed.

Lemma rfind_dot_aux_app (l1 l2 : pystr) : forall i best,
  rfind_dot_aux (l1 ++ l2) i best =
  rfind_dot_aux l2 (i + Z.of_nat (List.length l1)) (rfind_dot_aux l1 i best).
Proof.
  induction l1 as [| c l1 IH]; intros i best; simpl.
  - rewrite Z.add_0_r. reflexivity.
  - rewrite IH. f_equal. lia.
Qed.

(** X: an upload named B.docx (B non-empty, no slash) is offered as B.pdf and
   previewed as preview_B.pdf. *)
Theorem download_names_docx (base : pystr) :
  base <> [] -> ~ In 47 base ->
  download_names (base ++ lit ".docx") =
    (lit "preview_" ++ base ++ lit ".pdf", base ++ lit ".pdf").
Proof.
  intros Hne Hns.
  assert (Hstem : path_stem (base ++ lit ".docx") = base).
  { unfold path_stem, path_name.
    rewrite split_slash_no_slash.
    2: { intros Hin. apply in_app_or in Hin. destruct Hin as [Hin | Hin];
         [exact (Hns Hin) | simpl in Hin; lia]. }
    simpl rev. rewrite app_nil_l.
    assert (Hk : truthy (base ++ lit ".docx") &&
                 negb (if list_eq_dec Z.eq_dec (base ++ lit ".docx") [46]
                       then true else false) = true).
    { destruct base as [| c base]; [contradiction |].
      destruct (list_eq_dec Z.eq_dec ((c :: base) ++ lit ".docx") [46]) as [E | _];
        [| reflexivity].
      exfalso. apply (f_equal (@List.length Z)) in E.
      rewrite length_app in E. simpl in E. lia. }
    cbn [filter]. rewrite Hk. cbn [last].
    unfold rfind_dot. rewrite rfind_dot_aux_app. simpl rfind_dot_aux.
    set (L := Z.of_nat (List.length base)).
    assert (HL : 0 < L) by (destruct base; [contradiction | unfold L; simpl; lia]).
    rewrite length_app. simpl List.length.
    replace (0 <? L) with true by (symmetry; apply Z.ltb_lt; lia).
    replace (L <? Z.of_nat (List.length base + 5) - 1) with true
      by (symmetry; apply Z.ltb_lt; unfold L; lia).
    simpl andb. cbv iota.
    replace (Z.to_nat L) with (List.length base + 0)%nat
      by (unfold L; rewrite Nat2Z.id; lia).
    rewrite firstn_app_2. simpl. apply app_nil_r. }
  unfold download_names. rewrite Hstem. reflexivity.
Qed.

(** ** Table cells *)






(** ** Document analysis *)


Lemma incr_if_add (b : bool) (n : nat) : incr_if b n = (n + if b then 1 else 0)%nat.
Proof. destruct b; simpl; lia. Qed.

Lemma count_nonblank_cons (P : run -> bool) (r : run) (l : list run) :
  count_nonblank P (r :: l) =
    ((if negb (blank (run_text r)) && P r then 1 else 0) + count_nonblank P l)%nat.
Proof. unfold count_nonblank. simpl. destruct (negb _ && P r); reflexivity. Qed.

Lemma set_add_NoDup (z : Z) (l : list Z) : NoDup l -> NoDup (set_add z l).
Proof.
  intros H. unfold set_add. destruct (existsb (Z.eqb z) l) eqn:E; [exact H |].
  apply NoDup_app; [exact H | constructor; [intros [] | constructor] |].
  intros x Hx [-> | []]. assert (existsb (Z.eqb x) l = true).
  { apply existsb_exists. exists x. split; [exact Hx | apply Z.eqb_refl]. }
  congruence.
Qed.

Lemma set_add_In (z x : Z) (l : list Z) : In x (set_add z l) <-> In x l \/ x = z.
Proof.
  unfold set_add. destruct (existsb (Z.eqb z) l) eqn:E.
  - apply existsb_exists in E. destruct E as (y & Hy & Ey). apply Z.eqb_eq in Ey.
    subst y. split; [tauto |]. intros [H | ->]; assumption.
  - rewrite in_app_iff. simpl. intuition congruence.
Qed.

Lemma fold_count_run (l : list run) : forall st,
  let st' := fold_left count_run l st in
  bold_runs st' = (bold_runs st + count_nonblank (fun r => bold (get_text_formatting r)) l)%nat /\
  italic_runs st' = (italic_runs st + count_nonblank (fun r => italic (get_text_formatting r)) l)%nat /\
  underline_runs st' =
    (underline_runs st + count_nonblank (fun r => underline (get_text_formatting r)) l)%nat /\
  gurmukhi_runs st' =
    (gurmukhi_runs st + count_nonblank (fun r => is_gurmukhi_text (Some (run_text r))) l)%nat /\
  (NoDup (font_sizes st) -> NoDup (font_sizes st')) /\
  (forall z, In z (font_sizes st') <->
     In z (font_sizes st) \/
     exists r, In r l /\ blank (run_text r) = false /\ size (get_text_formatting r) = z).
Proof.
  induction l as [| r l IH]; intros st; cbv zeta.
  - simpl. repeat split; try lia; auto; intros H; try (left; exact H).
    destruct H as [H | (r & [] & _)]. exact H.
  - simpl fold_left. destruct (IH (count_run st r)) as (B & I & U & G & N & S).
    rewrite !count_nonblank_cons.
    destruct (blank (run_text r)) eqn:Bl; cbn [negb andb].
    + assert (C : count_run st r = st) by (unfold count_run; rewrite Bl; reflexivity).
      rewrite C in *.
      repeat split; try lia; try exact N.
      * intros Hz. apply S in Hz. destruct Hz as [Hz | (r' & Hr' & Hb & Hs)]; [left; exact Hz |].
        right. exists r'. split; [right; exact Hr' | split; assumption].
      * intros [Hz | (r' & [<- | Hr'] & Hb & Hs)]; apply S.
        -- left. exact Hz.
        -- congruence.
        -- right. exists r'. split; [exact Hr' | split; assumption].
    + assert (C : (font_sizes (count_run st r) =
                     set_add (size (get_text_formatting r)) (font_sizes st)) /\
                  (bold_runs (count_run st r) =
                     incr_if (bold (get_text_formatting r)) (bold_runs st)) /\
                  (italic_runs (count_run st r) =
                     incr_if (italic (get_text_formatting r)) (italic_runs st)) /\
                  (underline_runs (count_run st r) =
                     incr_if (underline (get_text_formatting r)) (underline_runs st)) /\
                  (gurmukhi_runs (count_run st r) =
                     incr_if (is_gurmukhi_text (Some (run_text r))) (gurmukhi_runs st)))
        by (unfold count_run; rewrite Bl; repeat split).
      destruct C as (Cs & Cb & Ci & Cu & Cg).
      rewrite Cb, incr_if_add in B. rewrite Ci, incr_if_add in I.
      rewrite Cu, incr_if_add in U. rewrite Cg, incr_if_add in G.
      rewrite Cs in N, S.
      repeat split; try lia.
      * intros H. apply N. apply set_add_NoDup. exact H.
      * intros Hz. apply S in Hz. destruct Hz as [Hz | (r' & Hr' & Hb & Hs)].
        -- apply set_add_In in Hz. destruct Hz as [Hz | Hz]; [left; exact Hz |].
           right. exists r. split; [left; reflexivity | split; [exact Bl | symmetry; exact Hz]].
        -- right. exists r'. split; [right; exact Hr' | split; assumption].
      * intros Hz. apply S. destruct Hz as [Hz | (r' & [<- | Hr'] & Hb & Hs)].
        -- left. apply set_add_In. left. exact Hz.
        -- left. apply set_add_In. right. symmetry. exact Hs.
        -- right. exists r'. split; [exact Hr' | split; assumption].
Qed.

(** X: the analysis counts the non-blank runs that are bold, italic,
   underlined or Gurmukhi, and lists each font size of a non-blank run exactly
   once. *)
Theorem analyze_spec (pars : list paragraph) :
  let rs := flat_map par_runs pars in
  let st := analyze pars in
  bold_runs st = count_nonblank (fun r => bold (get_text_formatting r)) rs /\
  italic_runs st = count_nonblank (fun r => italic (get_text_formatting r)) rs /\
  underline_runs st = count_nonblank (fun r => underline (get_text_formatting r)) rs /\
  gurmukhi_runs st = count_nonblank (fun r => is_gurmukhi_text (Some (run_text r))) rs /\
  NoDup (font_sizes st) /\
  (forall z, In z (font_sizes st) <->
     exists r, In r rs /\ blank (run_text r) = false /\ size (get_text_formatting r) = z).
Proof.
  cbv zeta. unfold analyze.
  destruct (fold_count_run (flat_map par_runs pars) empty_stats) as (B & I & U & G & N & S).
  repeat split; try assumption.
  - apply N. constructor.
  - intros Hz. apply S in Hz. destruct Hz as [[] | Hz]. exact Hz.
  - intros Hz. apply S. right. exact Hz.
Qed.

(** ** Conversion success *)


(** ** Witnesses *)

Lemma story_fonts_available_witness :
  let e := nth 0 (story FR_all gurmukhi_body) (ESpacer 0 0) in
  In e (story FR_all gurmukhi_body) /\
  match e with
  | EPara _ st => font_available FR_all (ps_fontName st)
  | ETable _ cmds =>
      forall c f, In c cmds -> tc_name c = "FONTNAME"%string ->
      In (AStr f) (tc_args c) -> font_available FR_all f
  | ESpacer _ _ => True
  end.
Proof.
  cbv zeta.
  assert (H : In (nth 0 (story FR_all gurmukhi_body) (ESpacer 0 0))
                 (story FR_all gurmukhi_body)) by (vm_compute; left; reflexivity).
  split; [exact H | exact (story_fonts_available FR_all gurmukhi_body _ H)].
Defined.

Lemma story_min_font_size_witness :
  match nth 0 (story FR_all gurmukhi_body) (ESpacer 0 0) with
  | EPara _ st => 12 <= ps_fontSize st /\ ps_leading10 st = ps_fontSize st * 12
  | _ => False
  end.
Proof.
  assert (H : In (nth 0 (story FR_all gurmukhi_body) (ESpacer 0 0))
                 (story FR_all gurmukhi_body)) by (vm_compute; left; reflexivity).
  destruct (nth 0 (story FR_all gurmukhi_body) (ESpacer 0 0)) as [t st | w h | d c] eqn:E.
  - exact (story_min_font_size FR_all gurmukhi_body t st H).
  - vm_compute in E. discriminate E.
  - vm_compute in E. discriminate E.
Defined.

Lemma register_fonts_regular_failure_witness :
  register_fonts (Some (lit "/tmp/bad.ttf")) (Some (lit "/tmp/bold.ttf"))
    (fun p => if list_eq_dec Z.eq_dec p (lit "/tmp/bad.ttf") then false else true)
    FR_none = (FR_none, [lit "Font registration error"]).
Proof.
  apply (register_fonts_regular_failure _ _ _ FR_none (lit "/tmp/bad.ttf"));
    reflexivity.
Defined.

Lemma download_names_docx_witness :
  download_names (lit "report" ++ lit ".docx") =
    (lit "preview_" ++ lit "report" ++ lit ".pdf", lit "report" ++ lit ".pdf").
Proof.
  apply download_names_docx; [discriminate | simpl; lia].
Defined.


(** ** Script of a paragraph *)




(** X: the font of non-Gurmukhi text does not depend on the registered fonts. *)
Theorem get_best_font_latin_independent (FR1 FR2 : fonts_registered) (text : pystr)
    (is_bold is_italic : bool) :
  is_gurmukhi_text (Some text) = false ->
  get_best_font FR1 text is_bold is_italic = get_best_font FR2 text is_bold is_italic.
Proof. intros H. unfold get_best_font. rewrite H. reflexivity. Qed.

Lemma get_best_font_latin_independent_witness :
  get_best_font FR_none (lit "Hello") true false =
  get_best_font FR_all (lit "Hello") true false.
Proof. apply get_best_font_latin_independent. vm_compute. reflexivity. Defined.

